(** * Data-quality checks: the validation job of [src/main.py]

    The job reads a CSV file into a Spark DataFrame, evaluates a fixed
    sequence of filter-and-count rules, appends one issue per rule whose
    count is positive to [validation_results], turns that list into a
    DataFrame and writes it below the output path.

    The embedding follows the script.  The PySpark values it manipulates
    are modelled as far as the script observes them:
    - a DataFrame is a schema (column names) and a list of rows; the CSV
      reader delivers every column as a string, null when absent;
    - a [Column] expression carries the column names it refers to and a
      row-wise evaluation with SQL's three-valued logic (null = [None]);
    - [DataFrame.filter] resolves the referenced names against the schema
      and raises [AnalysisException] when one is missing, otherwise keeps
      the rows on which the condition is true; names are compared as
      written, the header being taken in the spelling of the catalog;
    - [createDataFrame] infers its schema from the first record and raises
      [ValueError] on an empty list.
    String-to-double and string-to-date casts are parameters of the
    development (null on failure, as in Spark's default non-ANSI mode). *)

From Stdlib Require Import ZArith Ascii String List.
From stdpp Require Import base option list strings gmap.

Local Open Scope string_scope.
Local Open Scope list_scope.

(** ** Regular expressions of [Column.rlike] *)

(** The fragment of [java.util.regex] syntax that the script's four
    patterns use.  Every pattern has the shape [^body$]; [rlike] below
    takes the body. *)
Inductive regex : Type :=
| Range (lo hi : ascii)            (* [lo-hi] *)
| Lit (c : ascii)                  (* a literal character *)
| Seq (r1 r2 : regex)              (* r1 r2 *)
| Times (n : nat) (r : regex)      (* r{n} *)
| Opt (r : regex).                 (* (?:r)? *)

Definition in_range (lo hi c : ascii) : bool :=
  (N_of_ascii lo <=? N_of_ascii c)%N && (N_of_ascii c <=? N_of_ascii hi)%N.

(** [iter_match m n s]: the suffixes left after matching [m] exactly [n]
    times at the start of [s]. *)
Fixpoint iter_match (m : string -> list string) (n : nat) (s : string)
  : list string :=
  match n with
  | O => [s]
  | S n' => flat_map (iter_match m n') (m s)
  end.

(** [rmatch r s]: the suffixes of [s] left after a match of [r] at the
    start of [s], in the order the backtracking matcher tries them. *)
Fixpoint rmatch (r : regex) (s : string) : list string :=
  match r with
  | Range lo hi =>
      match s with
      | String c s' => if in_range lo hi c then [s'] else []
      | EmptyString => []
      end
  | Lit a =>
      match s with
      | String c s' => if Ascii.eqb a c then [s'] else []
      | EmptyString => []
      end
  | Seq r1 r2 => flat_map (rmatch r2) (rmatch r1 s)
  | Times n r' => iter_match (rmatch r') n s
  | Opt r' => rmatch r' s ++ [s]
  end.

(** Line terminators of [java.util.regex] (UNIX_LINES off), as UTF-8
    bytes: LF, CR, CR LF, U+0085, U+2028, U+2029. *)
Definition line_terminators : list string :=
  [ String "010" EmptyString;
    String "013" EmptyString;
    String "013" (String "010" EmptyString);
    String "194" (String "133" EmptyString);
    String "226" (String "128" (String "168" EmptyString));
    String "226" (String "128" (String "169" EmptyString)) ].

(** [$] without MULTILINE: the end of the input, or the position before
    a line terminator that ends the input. *)
Definition at_dollar (rest : string) : bool :=
  String.eqb rest EmptyString || existsb (String.eqb rest) line_terminators.

(** [rlike_string s body]: [Pattern.compile("^body$").matcher(s).find()]. *)
Definition rlike_string (s : string) (body : regex) : bool :=
  existsb at_dollar (rmatch body s).

Definition digit : regex := Range "0" "9".
Definition upper : regex := Range "A" "Z".
Definition dash : regex := Lit "-".

(** [^[0-9]{4}-[0-9]{2}-[0-9]{2}$] *)
Definition date_pattern : regex :=
  Seq (Times 4 digit) (Seq dash (Seq (Times 2 digit) (Seq dash (Times 2 digit)))).
(** [^[0-9]{9}$] *)
Definition nine_digits_pattern : regex := Times 9 digit.
(** [^[A-Z]{2}$] *)
Definition state_code_pattern : regex := Times 2 upper.
(** [^[0-9]{5}(?:-[0-9]{4})?$] *)
Definition postal_code_pattern : regex :=
  Seq (Times 5 digit) (Opt (Seq dash (Times 4 digit))).

(** *** The strings of a pattern *)

(** Every character of [s] lies in [lo-hi]. *)
Fixpoint all_in_range (lo hi : ascii) (s : string) : bool :=
  match s with
  | EmptyString => true
  | String c s' => in_range lo hi c && all_in_range lo hi s'
  end.

(** [n] strings of [L], one after the other. *)
Fixpoint power (L : string -> Prop) (n : nat) (s : string) : Prop :=
  match n with
  | O => s = EmptyString
  | S n' => exists s1 s2, s = (s1 ++ s2)%string /\ L s1 /\ power L n' s2
  end.

(** The language of a regular expression. *)
Fixpoint lang (r : regex) (s : string) : Prop :=
  match r with
  | Range lo hi => exists c, s = String c EmptyString /\ in_range lo hi c = true
  | Lit a => s = String a EmptyString
  | Seq r1 r2 => exists s1 s2, s = (s1 ++ s2)%string /\ lang r1 s1 /\ lang r2 s2
  | Times n r' => power (lang r') n s
  | Opt r' => s = EmptyString \/ lang r' s
  end.

(** What may follow the match of [^body$]: nothing, or one line
    terminator. *)
Definition dollar_ends : list string := EmptyString :: line_terminators.

(** ** Exceptions and results *)

Inductive exception : Type :=
| AnalysisException (column : string)   (* a column name cannot be resolved *)
| ValueError (message : string).

Inductive result (A : Type) : Type :=
| Ok (a : A)
| Raise (e : exception).
Arguments Ok {A} a.
Arguments Raise {A} e.

Definition result_bind {A B} (f : A -> result B) (m : result A) : result B :=
  match m with
  | Ok a => f a
  | Raise e => Raise e
  end.

Definition result_map {A B} (f : A -> B) (m : result A) : result B :=
  result_bind (fun a => Ok (f a)) m.

(** ** Issues and the validation state *)

(** One entry of [validation_results]: the dict with keys
    ['field'], ['issue'], ['count']. *)
Record Issue : Type := mkIssue {
  field : string;
  issue : string;
  count : nat
}.

(** The pair that identifies the rule an issue comes from. *)
Definition label (i : Issue) : string * string := (field i, issue i).

(** The count that a report gives for a label: the counts of the issues
    that carry it, 0 when there is none. *)
Definition reported (results : list Issue) (lbl : string * string) : nat :=
  sum_list (count <$> List.filter (fun i => bool_decide (label i = lbl)) results).

(** Statements of the function body: they read and extend the list
    [validation_results], and may raise. *)
Definition M (A : Type) : Type := list Issue -> result (A * list Issue).

Definition M_ret {A} (a : A) : M A := fun st => Ok (a, st).
Definition M_bind {A B} (f : A -> M B) (m : M A) : M B :=
  fun st =>
    match m st with
    | Ok (a, st') => f a st'
    | Raise e => Raise e
    end.

#[global] Instance M_MRet : MRet M := @M_ret.
#[global] Instance M_MBind : MBind M := @M_bind.

(** Evaluate an expression that may raise. *)
Definition lift {A} (m : result A) : M A :=
  fun st => match m with Ok a => Ok (a, st) | Raise e => Raise e end.

(** [validation_results.append(i)] *)
Definition append (i : Issue) : M unit := fun st => Ok (tt, st ++ [i]).

(** [for x in xs: body(x)] *)
Fixpoint for_each {A} (xs : list A) (body : A -> M unit) : M unit :=
  match xs with
  | [] => mret tt
  | x :: xs' => _ ← body x; for_each xs' body
  end.

(** [if cond: stmt] *)
Definition when (cond : bool) (stmt : M unit) : M unit :=
  if cond then stmt else mret tt.

(** ** DataFrames and Column expressions *)

(** A row maps a column name to its value; a null has no entry. *)
Abbreviation Row := (gmap string string).

Record DataFrame : Type := mkDataFrame {
  columns : list string;
  rows : list Row
}.

(** A Column expression of SQL type [T]: the names it refers to and its
    value on a row ([None] is SQL NULL). *)
Record Column (T : Type) : Type := mkColumn {
  refs : list string;
  eval : Row -> option T
}.
Arguments mkColumn {T} refs eval.
Arguments refs {T} c.
Arguments eval {T} c r.

(** Kleene's three-valued connectives, as Spark's [And], [Or], [Not]. *)
Definition and3 (a b : option bool) : option bool :=
  match a, b with
  | Some false, _ | _, Some false => Some false
  | Some true, Some true => Some true
  | _, _ => None
  end.

Definition or3 (a b : option bool) : option bool :=
  match a, b with
  | Some true, _ | _, Some true => Some true
  | Some false, Some false => Some false
  | _, _ => None
  end.

Definition not3 (a : option bool) : option bool := negb <$> a.

(** Types with the ordering Spark uses for [<] and [>]. *)
Class Ordered (T : Type) : Type := ordered_ltb : T -> T -> bool.

(** StringType: byte-wise lexicographic order. *)
#[global] Instance string_Ordered : Ordered string := String.ltb.
(** DateType: days since the epoch. *)
#[global] Instance date_Ordered : Ordered Z := Z.ltb.

Definition col (name : string) : Column string :=
  mkColumn [name] (fun r => r !! name).

Definition isNull {T} (c : Column T) : Column bool :=
  mkColumn (refs c)
    (fun r => Some (match eval c r with None => true | Some _ => false end)).

Definition isNotNull {T} (c : Column T) : Column bool :=
  mkColumn (refs c)
    (fun r => Some (match eval c r with None => false | Some _ => true end)).

Definition rlike (c : Column string) (body : regex) : Column bool :=
  mkColumn (refs c) (fun r => s ← eval c r; Some (rlike_string s body)).

(** [a & b], [a | b], [~a] *)
Definition Column_and (a b : Column bool) : Column bool :=
  mkColumn (refs a ++ refs b) (fun r => and3 (eval a r) (eval b r)).
Definition Column_or (a b : Column bool) : Column bool :=
  mkColumn (refs a ++ refs b) (fun r => or3 (eval a r) (eval b r)).
Definition Column_invert (a : Column bool) : Column bool :=
  mkColumn (refs a) (fun r => not3 (eval a r)).

(** [a < b], [a > b]: null when an operand is null. *)
Definition Column_lt {T} `{Ordered T} (a b : Column T) : Column bool :=
  mkColumn (refs a ++ refs b)
    (fun r => x ← eval a r; y ← eval b r; Some (ordered_ltb x y)).
Definition Column_gt {T} `{Ordered T} (a b : Column T) : Column bool :=
  mkColumn (refs a ++ refs b)
    (fun r => x ← eval a r; y ← eval b r; Some (ordered_ltb y x)).

(** Python's [a & b], [a | b], [~a], [a < b], [a > b] on Columns. *)
Declare Scope column_scope.
Delimit Scope column_scope with col.
Bind Scope column_scope with Column.
Notation "a &. b" := (Column_and a b)
  (at level 40, left associativity) : column_scope.
Notation "a |. b" := (Column_or a b)
  (at level 50, left associativity) : column_scope.
Notation "~. a" := (Column_invert a)
  (at level 35, right associativity) : column_scope.
Notation "a <. b" := (Column_lt a b) (at level 38, no associativity) : column_scope.
Notation "a >. b" := (Column_gt a b) (at level 38, no associativity) : column_scope.

(** The first name of [names] that the schema of [df] does not have. *)
Definition unresolved (df : DataFrame) (names : list string) : option string :=
  find (fun name => negb (bool_decide (name ∈ columns df))) names.

(** A filter keeps the rows on which its condition is true; rows on which
    it is false or null are dropped. *)
Definition keeps (condition : Column bool) (r : Row) : bool :=
  match eval condition r with
  | Some true => true
  | _ => false
  end.

(** [df.filter(condition)] *)
Definition DataFrame_filter (df : DataFrame) (condition : Column bool)
  : result DataFrame :=
  match unresolved df (refs condition) with
  | Some name => Raise (AnalysisException name)
  | None => Ok (mkDataFrame (columns df) (List.filter (keeps condition) (rows df)))
  end.

(** [df.count()] *)
Definition DataFrame_count (df : DataFrame) : nat := length (rows df).

(** [df.filter(condition).count()] *)
Definition filter_count (df : DataFrame) (condition : Column bool) : M nat :=
  lift (result_map DataFrame_count (DataFrame_filter df condition)).

(** ** The validation job *)

(** [spark.createDataFrame(data)] on a list of dicts, without a schema:
    the schema is inferred from the data, which fails on an empty list.
    The resulting frame is represented by its records. *)
Definition createDataFrame (data : list Issue) : result (list Issue) :=
  match data with
  | [] => Raise (ValueError "can not infer schema from empty dataset")
  | _ :: _ => Ok data
  end.

(** What [write_dynamic_frame.from_options] receives. *)
Record Written : Type := mkWritten {
  path : string;
  frame : list Issue
}.

(** The dict [required_fields], in its insertion order, which is the
    order [items()] iterates in. *)
Definition required_fields : list (string * string) :=
  [ ("DocumentCount", "integer");
    ("AmendedReturn", "boolean");
    ("FAMLIPremiumStartDate", "date");
    ("FAMLIPremiumEndDate", "date");
    ("SettlementDate", "datetime");
    ("EmployerLegalName", "string");
    ("BusAdrStreet1", "string");
    ("BusAdrCity", "string");
    ("BusAdrStateCode", "string");
    ("BusAdrPostalCode", "string");
    ("BusAdrCountry", "string");
    ("TotalWagesThisPeriod", "numeric");
    ("PaymentAmountTotal", "numeric");
    ("IsFinalReturn", "boolean");
    ("EmployeeSSN", "string");
    ("EmployeeFirstName", "string");
    ("EmployeeLastName", "string");
    ("YearToDateWages", "numeric");
    ("GrossWagesThisQtr", "numeric");
    ("SubjectWagesThisQtr", "numeric");
    ("FAMLIContributionThisQtr", "numeric") ].

(** Every column the script refers to. *)
Definition referenced_columns : list string :=
  required_fields.*1 ++ ["EmployerFEIN"].

(** [SubjectWagesThisQtr > GrossWagesThisQtr], both present. *)
Definition subject_exceeds_gross (r : Row) : bool :=
  match r !! "SubjectWagesThisQtr", r !! "GrossWagesThisQtr" with
  | Some subject, Some gross => String.ltb gross subject
  | _, _ => false
  end.

(** [YearToDateWages < GrossWagesThisQtr], both present. *)
Definition ytd_below_gross (r : Row) : bool :=
  match r !! "YearToDateWages", r !! "GrossWagesThisQtr" with
  | Some ytd, Some gross => String.ltb ytd gross
  | _, _ => false
  end.

Definition wage_violation (r : Row) : bool :=
  subject_exceeds_gross r || ytd_below_gross r.


(** ** Sample casts and data

    The properties below hold for every pair of casts.  The examples
    instantiate them with two casts that agree with Spark's on the strings
    the examples contain: unsigned decimal integers, and dates written
    [yyyy-mm-dd]. *)

Definition digit_value (c : ascii) : option Z :=
  let n := Z.of_N (N_of_ascii c) in
  if ((48 <=? n) && (n <=? 57))%Z then Some (n - 48)%Z else None.

Fixpoint digits_value (acc : Z) (s : string) : option Z :=
  match s with
  | EmptyString => Some acc
  | String c s' => d ← digit_value c; digits_value (10 * acc + d)%Z s'
  end.

Definition unsigned_decimal (s : string) : option Z :=
  match s with
  | EmptyString => None
  | String _ _ => digits_value 0 s
  end.

Definition is_leap (y : Z) : bool :=
  ((y mod 4 =? 0) && (negb (y mod 100 =? 0) || (y mod 400 =? 0)))%Z.

Definition days_in_month (y m : Z) : Z :=
  if (m =? 2)%Z then (if is_leap y then 29 else 28)%Z
  else if ((m =? 4) || (m =? 6) || (m =? 9) || (m =? 11))%Z then 30%Z
  else 31%Z.

(** Days since 1970-01-01 of a date of the proleptic Gregorian calendar. *)
Definition days_from_civil (y m d : Z) : Z :=
  let y' := (if m <=? 2 then y - 1 else y)%Z in
  let era := (y' / 400)%Z in
  let yoe := (y' - era * 400)%Z in
  let mp := (if m <=? 2 then m + 9 else m - 3)%Z in
  let doy := ((153 * mp + 2) / 5 + d - 1)%Z in
  let doe := (yoe * 365 + yoe / 4 - yoe / 100 + doy)%Z in
  (era * 146097 + doe - 719468)%Z.

Definition iso_to_date (s : string) : option Z :=
  if (String.length s =? 10)%nat
     && String.eqb (substring 4 1 s) "-" && String.eqb (substring 7 1 s) "-"
  then
    y ← unsigned_decimal (substring 0 4 s);
    m ← unsigned_decimal (substring 5 2 s);
    d ← unsigned_decimal (substring 8 2 s);
    if ((1 <=? m) && (m <=? 12) && (1 <=? d) && (d <=? days_in_month y m))%Z
    then Some (days_from_civil y m d)
    else None
  else None.

(** A record that violates no rule. *)
Definition clean_row : Row :=
  list_to_map
    [ ("DocumentCount", "1");
      ("AmendedReturn", "false");
      ("FAMLIPremiumStartDate", "2024-01-01");
      ("FAMLIPremiumEndDate", "2024-03-31");
      ("SettlementDate", "2024-04-15 10:00:00");
      ("EmployerLegalName", "Acme Corp");
      ("BusAdrStreet1", "1 Main St");
      ("BusAdrCity", "Boston");
      ("BusAdrStateCode", "MA");
      ("BusAdrPostalCode", "02108");
      ("BusAdrCountry", "US");
      ("TotalWagesThisPeriod", "4000");
      ("PaymentAmountTotal", "40");
      ("IsFinalReturn", "false");
      ("EmployeeSSN", "123456789");
      ("EmployeeFirstName", "Ada");
      ("EmployeeLastName", "Lovelace");
      ("YearToDateWages", "4000");
      ("GrossWagesThisQtr", "4000");
      ("SubjectWagesThisQtr", "4000");
      ("FAMLIContributionThisQtr", "18");
      ("EmployerFEIN", "987654321") ].

Definition clean_df : DataFrame := mkDataFrame referenced_columns [clean_row].

(** A record with malformed and missing values. *)
Definition dirty_row : Row :=
  <["FAMLIPremiumStartDate" := "2024-03-01"]>
  (<["FAMLIPremiumEndDate" := "01/01/2024"]>
  (<["TotalWagesThisPeriod" := "abc"]>
  (<["EmployeeSSN" := "12345678A"]>
  (<["BusAdrStateCode" := "ma"]>
  (<["SubjectWagesThisQtr" := "5000"]>
  (delete "EmployerLegalName" clean_row)))))).

(** The dates are out of order and both wage clauses are violated. *)
Definition late_row : Row :=
  <["FAMLIPremiumStartDate" := "2024-03-01"]>
  (<["FAMLIPremiumEndDate" := "2024-01-01"]>
  (<["SubjectWagesThisQtr" := "5000"]>
  (<["YearToDateWages" := "3000"]> clean_row))).

Definition dirty_df : DataFrame :=
  mkDataFrame referenced_columns [clean_row; dirty_row; late_row].

(** What the rules report on [dirty_df]. *)
Definition dirty_report : list Issue :=
  [ mkIssue "FAMLIPremiumEndDate" "Invalid date format in FAMLIPremiumEndDate" 1;
    mkIssue "EmployerLegalName" "Missing required field: EmployerLegalName" 1;
    mkIssue "TotalWagesThisPeriod"
      "Invalid numeric value in TotalWagesThisPeriod" 1;
    mkIssue "EmployeeSSN" "Invalid SSN format" 1;
    mkIssue "BusAdrStateCode" "Invalid state code format" 1;
    mkIssue "FAMLIPremiumDates" "End date is before start date" 1;
    mkIssue "WagesCalculation" "Invalid wage calculations" 2 ].

(** A file whose header has no column [DocumentCount]. *)
Definition headless_df : DataFrame :=
  mkDataFrame (tail referenced_columns) [delete "DocumentCount" clean_row].

(** A file with every column, where [EmployerLegalName] is empty in
    both records. *)
Definition unnamed_df : DataFrame :=
  mkDataFrame referenced_columns
    [delete "EmployerLegalName" clean_row; delete "EmployerLegalName" late_row].

(** A file with the 21 catalog columns and no column [EmployerFEIN]. *)
Definition no_fein_df : DataFrame :=
  mkDataFrame required_fields.*1 [delete "EmployerFEIN" dirty_row].

(** A hundred records: three without [EmployerLegalName], two with a
    state code in lower case. *)
Definition hundred_rows_df : DataFrame :=
  mkDataFrame referenced_columns
    (replicate 95 clean_row
     ++ replicate 3 (delete "EmployerLegalName" clean_row)
     ++ replicate 2 (<["BusAdrStateCode" := "ma"]> clean_row)).

(** The records of [dirty_df] in the reverse order. *)
Definition reversed_df : DataFrame :=
  mkDataFrame (columns dirty_df) (rev (rows dirty_df)).

(** The records of [dirty_df], each with a value under a name that is
    not a column. *)
Definition annotated_df : DataFrame :=
  mkDataFrame (columns dirty_df) (insert "Comment" "checked" <$> rows dirty_df).

(** [dirty_df] cut in two. *)
Definition dirty_head_df : DataFrame :=
  mkDataFrame referenced_columns [clean_row; dirty_row].
Definition dirty_tail_df : DataFrame :=
  mkDataFrame referenced_columns [late_row].

Definition dirty_head_report : list Issue :=
  [ mkIssue "FAMLIPremiumEndDate" "Invalid date format in FAMLIPremiumEndDate" 1;
    mkIssue "EmployerLegalName" "Missing required field: EmployerLegalName" 1;
    mkIssue "TotalWagesThisPeriod"
      "Invalid numeric value in TotalWagesThisPeriod" 1;
    mkIssue "EmployeeSSN" "Invalid SSN format" 1;
    mkIssue "BusAdrStateCode" "Invalid state code format" 1;
    mkIssue "WagesCalculation" "Invalid wage calculations" 1 ].

Definition dirty_tail_report : list Issue :=
  [ mkIssue "FAMLIPremiumDates" "End date is before start date" 1;
    mkIssue "WagesCalculation" "Invalid wage calculations" 1 ].

(** A document count and a flag that are no integer and no boolean. *)
Definition untyped_df : DataFrame :=
  mkDataFrame referenced_columns
    [ <["DocumentCount" := "abc"]> (<["AmendedReturn" := "maybe"]> clean_row);
      late_row ].

(** The end date has the shape of a date and names no day. *)
Definition impossible_date_row : Row :=
  <["FAMLIPremiumEndDate" := "2024-13-45"]> clean_row.

(** The subject wages are null; the year-to-date wages are below the
    gross wages. *)
Definition partial_wage_row : Row :=
  <["YearToDateWages" := "3000"]> (delete "SubjectWagesThisQtr" clean_row).

(** The shapes of the rules: presence of a catalog field, the format
    check of a field declared ['date'] or ['numeric'], the pattern check
    of a hand-picked field, and the two cross-field rules. *)
Inductive rule : Type :=
| RequiredField (f : string)
| DateFormat (f : string)
| NumericFormat (f : string)
| FieldFormat (f : string) (description : string) (body : regex)
| DateOrder
| WageConsistency.

(** The ['field'] and ['issue'] entries of the issue a rule reports. *)
Definition rule_label (rl : rule) : string * string :=
  match rl with
  | RequiredField f => (f, ("Missing required field: " ++ f)%string)
  | DateFormat f => (f, ("Invalid date format in " ++ f)%string)
  | NumericFormat f => (f, ("Invalid numeric value in " ++ f)%string)
  | FieldFormat f description _ => (f, description)
  | DateOrder => ("FAMLIPremiumDates", "End date is before start date")
  | WageConsistency => ("WagesCalculation", "Invalid wage calculations")
  end.

(** The rules of one catalog field: presence, then its format check. *)
Definition field_rules (item : string * string) : list rule :=
  let '(f, data_type) := item in
  RequiredField f ::
  (if String.eqb data_type "date" then [DateFormat f]
   else if String.eqb data_type "numeric" then [NumericFormat f]
   else []).

(** Every rule, in the order of evaluation: the catalog fields in their
    declared order; SSN, state code, postal code, FEIN; the order of the
    premium dates; the consistency of the wages. *)
Definition rule_catalog : list rule :=
  flat_map field_rules required_fields ++
  [ FieldFormat "EmployeeSSN" "Invalid SSN format" nine_digits_pattern;
    FieldFormat "BusAdrStateCode" "Invalid state code format" state_code_pattern;
    FieldFormat "BusAdrPostalCode" "Invalid postal code format" postal_code_pattern;
    FieldFormat "EmployerFEIN" "Invalid FEIN format" nine_digits_pattern;
    DateOrder;
    WageConsistency ].

Definition rule_order : list (string * string) := rule_label <$> rule_catalog.

Section Engine.

(** Spark's casts from StringType, null ([None]) when the string does
    not parse: [cast('double')] and [to_date] (days since the epoch). *)
Context {double : Type}.
Variable string_to_double : string -> option double.
Variable string_to_date : string -> option Z.

Definition cast_double (c : Column string) : Column double :=
  mkColumn (refs c) (fun r => s ← eval c r; string_to_double s).

Definition to_date (c : Column string) : Column Z :=
  mkColumn (refs c) (fun r => s ← eval c r; string_to_date s).

(** The filter conditions of the script. *)
Definition null_condition (field : string) : Column bool :=
  isNull (col field).

Definition date_format_condition (field : string) : Column bool :=
  (isNotNull (col field) &. ~. rlike (col field) date_pattern)%col.

Definition numeric_condition (field : string) : Column bool :=
  (isNotNull (col field) &. ~. isNotNull (cast_double (col field)))%col.

Definition ssn_format_condition : Column bool :=
  (isNotNull (col "EmployeeSSN")
   &. ~. rlike (col "EmployeeSSN") nine_digits_pattern)%col.

Definition state_code_condition : Column bool :=
  (isNotNull (col "BusAdrStateCode")
   &. ~. rlike (col "BusAdrStateCode") state_code_pattern)%col.

Definition postal_code_condition : Column bool :=
  (isNotNull (col "BusAdrPostalCode")
   &. ~. rlike (col "BusAdrPostalCode") postal_code_pattern)%col.

Definition fein_condition : Column bool :=
  (isNotNull (col "EmployerFEIN")
   &. ~. rlike (col "EmployerFEIN") nine_digits_pattern)%col.

Definition date_order_condition : Column bool :=
  (to_date (col "FAMLIPremiumEndDate")
   <. to_date (col "FAMLIPremiumStartDate"))%col.

Definition contribution_condition : Column bool :=
  ((col "SubjectWagesThisQtr" >. col "GrossWagesThisQtr")
   |. (col "YearToDateWages" <. col "GrossWagesThisQtr"))%col.

(** The body of the loop over [required_fields.items()]. *)
Definition check_required_field (df : DataFrame) (item : string * string)
  : M unit :=
  let '(field, data_type) := item in
  null_count ← filter_count df (null_condition field);
  _ ← when (0 <? null_count)%nat
        (append (mkIssue field ("Missing required field: " ++ field)
                   null_count));
  if String.eqb data_type "date" then
    date_format_issues ← filter_count df (date_format_condition field);
    when (0 <? date_format_issues)%nat
      (append (mkIssue field ("Invalid date format in " ++ field)
                 date_format_issues))
  else if String.eqb data_type "numeric" then
    numeric_issues ← filter_count df (numeric_condition field);
    when (0 <? numeric_issues)%nat
      (append (mkIssue field ("Invalid numeric value in " ++ field)
                 numeric_issues))
  else mret tt.

(** Lines 48 to 181: the rules, in the order of the script. *)
Definition validation_rules (df : DataFrame) : M unit :=
  _ ← for_each required_fields (check_required_field df);
  ssn_format_issues ← filter_count df ssn_format_condition;
  _ ← when (0 <? ssn_format_issues)%nat
        (append (mkIssue "EmployeeSSN" "Invalid SSN format"
                   ssn_format_issues));
  state_code_issues ← filter_count df state_code_condition;
  _ ← when (0 <? state_code_issues)%nat
        (append (mkIssue "BusAdrStateCode" "Invalid state code format"
                   state_code_issues));
  postal_code_issues ← filter_count df postal_code_condition;
  _ ← when (0 <? postal_code_issues)%nat
        (append (mkIssue "BusAdrPostalCode" "Invalid postal code format"
                   postal_code_issues));
  fein_issues ← filter_count df fein_condition;
  _ ← when (0 <? fein_issues)%nat
        (append (mkIssue "EmployerFEIN" "Invalid FEIN format" fein_issues));
  date_order_issues ← filter_count df date_order_condition;
  _ ← when (0 <? date_order_issues)%nat
        (append (mkIssue "FAMLIPremiumDates" "End date is before start date"
                   date_order_issues));
  contribution_issues ← filter_count df contribution_condition;
  when (0 <? contribution_issues)%nat
    (append (mkIssue "WagesCalculation" "Invalid wage calculations"
               contribution_issues)).

(** The list [validation_results] when line 183 is reached. *)
Definition validation_results (df : DataFrame) : result (list Issue) :=
  result_map snd (validation_rules df []).

(** [validate_data_quality]: [df] is the frame read from [input_path]
    (line 41) and [timestamp] is [datetime.now()] formatted with
    ['%Y%m%d_%H%M%S'] (line 190).  The result is the frame handed to the
    writer and the path it is written to. *)
Definition validate_data_quality (df : DataFrame)
    (output_path timestamp : string) : result Written :=
  result_bind (fun results =>
    result_bind (fun validation_df =>
      Ok (mkWritten (output_path ++ "/validation_results_" ++ timestamp)
            validation_df))
      (createDataFrame results))
    (validation_results df).

(** *** The rules as a catalog

    The script is a sequence of rules of four shapes; [rule_catalog]
    lists them in the order the specification gives for the report. *)

Definition rule_condition (rl : rule) : Column bool :=
  match rl with
  | RequiredField f => null_condition f
  | DateFormat f => date_format_condition f
  | NumericFormat f => numeric_condition f
  | FieldFormat f _ body => (isNotNull (col f) &. ~. rlike (col f) body)%col
  | DateOrder => date_order_condition
  | WageConsistency => contribution_condition
  end.

(** The number of rows of [df] that a condition selects. *)
Definition violations (df : DataFrame) (condition : Column bool) : nat :=
  length (List.filter (keeps condition) (rows df)).

(** The issue a rule contributes: none when it selects no row. *)
Definition emit (df : DataFrame) (rl : rule) : list Issue :=
  let n := violations df (rule_condition rl) in
  if (0 <? n)%nat then [mkIssue (fst (rule_label rl)) (snd (rule_label rl)) n] else [].

Definition report (df : DataFrame) : list Issue :=
  flat_map (emit df) rule_catalog.

(** *** Two-valued readings of the business rules *)

(** Both dates are present, both parse, and the end is strictly
    earlier than the start. *)
Definition end_before_start (r : Row) : bool :=
  match r !! "FAMLIPremiumEndDate", r !! "FAMLIPremiumStartDate" with
  | Some e, Some s =>
      match string_to_date e, string_to_date s with
      | Some end_date, Some start_date => (end_date <? start_date)%Z
      | _, _ => false
      end
  | _, _ => false
  end.

(** A non-null value that the format rule [rl] rejects: it does not
    match the rule's pattern, or does not convert to a double.  The
    presence rule and the cross-field rules reject no value. *)
Definition malformed (rl : rule) (r : Row) : bool :=
  match rl with
  | DateFormat f =>
      match r !! f with
      | Some v => negb (rlike_string v date_pattern)
      | None => false
      end
  | NumericFormat f =>
      match r !! f with
      | Some v => match string_to_double v with Some _ => false | None => true end
      | None => false
      end
  | FieldFormat f _ body =>
      match r !! f with
      | Some v => negb (rlike_string v body)
      | None => false
      end
  | RequiredField _ | DateOrder | WageConsistency => false
  end.

Definition is_format_rule (rl : rule) : bool :=
  match rl with
  | DateFormat _ | NumericFormat _ | FieldFormat _ _ _ => true
  | RequiredField _ | DateOrder | WageConsistency => false
  end.

(** The two-valued reading of a rule: the rows it counts. *)
Definition selects (rl : rule) (r : Row) : bool :=
  match rl with
  | RequiredField f => bool_decide (r !! f = None)
  | DateFormat _ | NumericFormat _ | FieldFormat _ _ _ => malformed rl r
  | DateOrder => end_before_start r
  | WageConsistency => wage_violation r
  end.

(** * Properties *)

(** ** Resolution of column names *)

Lemma unresolved_None (df : DataFrame) (names : list string) :
unresolved df names = None <-> Forall (fun name => name ∈ columns df) names.
Proof.
unfold unresolved. induction names as [|name names IH]; simpl.
- split; [constructor | reflexivity].
- case_bool_decide as Hin; simpl.
  + rewrite IH. split; [by constructor | by inversion 1].
  + split; [discriminate | by inversion 1].
Qed.

Lemma unresolved_app (df : DataFrame) (l1 l2 : list string) :
unresolved df (l1 ++ l2) =
match unresolved df l1 with
| Some name => Some name
| None => unresolved df l2
end.
Proof.
unfold unresolved. induction l1 as [|name l1 IH]; simpl; [reflexivity|].
by destruct (negb _).
Qed.

Lemma unresolved_Some_not_in (df : DataFrame) (names : list string) (name : string) :
unresolved df names = Some name -> name ∈ names /\ name ∉ columns df.
Proof.
unfold unresolved. intros H. apply find_some in H as [Hin Hneg].
split; [by apply list_elem_of_In|].
by apply negb_true_iff, bool_decide_eq_false in Hneg.
Qed.

(** A condition over names of a resolved list is resolved. *)
Lemma unresolved_None_subseteq (df : DataFrame) (l l' : list string) :
unresolved df l = None -> l' ⊆ l -> unresolved df l' = None.
Proof.
rewrite !unresolved_None, !Forall_forall. intros H Hsub x Hx. apply H, Hsub, Hx.
Qed.

(** ** One statement at a time *)

Lemma bind_filter_count {B} (df : DataFrame) (c : Column bool)
  (k : nat -> M B) (st : list Issue) :
(filter_count df c ≫= k) st =
match unresolved df (refs c) with
| Some name => Raise (AnalysisException name)
| None => k (length (List.filter (keeps c) (rows df))) st
end.
Proof.
unfold mbind, M_MBind, M_bind, filter_count, lift, DataFrame_filter.
by destruct (unresolved df (refs c)).
Qed.

Lemma when_append (b : bool) (i : Issue) (st : list Issue) :
when b (append i) st = Ok (tt, st ++ if b then [i] else []).
Proof. destruct b; simpl; [reflexivity|]. by rewrite app_nil_r. Qed.

Lemma bind_when_append {B} (b : bool) (i : Issue) (k : unit -> M B)
  (st : list Issue) :
(when b (append i) ≫= k) st = k tt (st ++ if b then [i] else []).
Proof.
unfold mbind, M_MBind, M_bind. by rewrite when_append.
Qed.

Lemma bind_for_each_cons {A} (x : A) (xs : list A) (body : A -> M unit)
  (st : list Issue) :
for_each (x :: xs) body st =
match body x st with
| Ok (_, st') => for_each xs body st'
| Raise e => Raise e
end.
Proof. reflexivity. Qed.

(** ** The script as a fold over the catalog *)

(** One iteration of the loop: it raises when the field is not a
    column, and otherwise appends what the field's rules emit. *)
Lemma check_required_field_spec (df : DataFrame) (item : string * string)
    (st : list Issue) :
  check_required_field df item st =
  if bool_decide (item.1 ∈ columns df)
  then Ok (tt, st ++ flat_map (emit df) (field_rules item))
  else Raise (AnalysisException item.1).
Proof.
  destruct item as [f data_type].
  unfold check_required_field, field_rules. simpl fst.
  rewrite bind_filter_count. simpl refs. unfold unresolved. simpl find.
  case_bool_decide as Hin; simpl negb; cbv iota; [|reflexivity].
  rewrite bind_when_append.
  destruct (String.eqb data_type "date").
  - rewrite bind_filter_count. simpl refs. unfold unresolved. simpl find.
    rewrite bool_decide_eq_true_2 by done. simpl negb. cbv iota.
    rewrite when_append. unfold emit, violations. simpl.
    rewrite app_nil_r, <- app_assoc. reflexivity.
  - destruct (String.eqb data_type "numeric").
    + rewrite bind_filter_count. simpl refs. unfold unresolved. simpl find.
      rewrite bool_decide_eq_true_2 by done. simpl negb. cbv iota.
      rewrite when_append. unfold emit, violations. simpl.
      rewrite app_nil_r, <- app_assoc. reflexivity.
    + unfold emit, violations. simpl. by rewrite app_nil_r.
Qed.

Lemma for_each_required_fields (df : DataFrame) (items : list (string * string))
    (st : list Issue) :
  for_each items (check_required_field df) st =
  match unresolved df items.*1 with
  | Some name => Raise (AnalysisException name)
  | None => Ok (tt, st ++ flat_map (emit df) (flat_map field_rules items))
  end.
Proof.
  revert st. induction items as [|item items IH]; intros st.
  - simpl. by rewrite app_nil_r.
  - rewrite bind_for_each_cons, check_required_field_spec.
    rewrite fmap_cons. unfold unresolved at 1. simpl find.
    case_bool_decide as Hin; simpl negb; cbv iota; [|reflexivity].
    rewrite IH. fold (unresolved df items.*1).
    destruct (unresolved df items.*1); [reflexivity|].
    change (flat_map field_rules (item :: items))
      with (field_rules item ++ flat_map field_rules items).
    by rewrite flat_map_app, app_assoc.
Qed.

Lemma bind_run {A B} (m : M A) (k : A -> M B) (st : list Issue) :
  (m ≫= k) st =
  match m st with
  | Ok (a, st') => k a st'
  | Raise e => Raise e
  end.
Proof. reflexivity. Qed.

Lemma subseteq_forallb (l' l : list string) :
  forallb (fun name => bool_decide (name ∈ l)) l' = true -> l' ⊆ l.
Proof.
  rewrite forallb_forall. intros H x Hx.
  apply list_elem_of_In in Hx. by apply H, bool_decide_eq_true in Hx.
Qed.

(** The rules after the loop refer to catalog fields and to
    [EmployerFEIN] only. *)
Ltac resolve_with Hcat :=
  rewrite (unresolved_None_subseteq _ _ _ Hcat)
    by (apply subseteq_forallb; vm_compute; reflexivity);
  cbv iota.

(** The whole sequence of rules: the first referenced column that the
    frame lacks is reported by [AnalysisException]; when there is none,
    the issues of the catalog's rules are appended in catalog order. *)
Lemma validation_rules_spec (df : DataFrame) (st : list Issue) :
  validation_rules df st =
  match unresolved df referenced_columns with
  | Some name => Raise (AnalysisException name)
  | None => Ok (tt, st ++ report df)
  end.
Proof.
  unfold validation_rules, referenced_columns.
  rewrite unresolved_app, bind_run, for_each_required_fields.
  destruct (unresolved df required_fields.*1) eqn:Hcat; [reflexivity|].
  rewrite bind_filter_count. resolve_with Hcat. rewrite bind_when_append.
  rewrite bind_filter_count. resolve_with Hcat. rewrite bind_when_append.
  rewrite bind_filter_count. resolve_with Hcat. rewrite bind_when_append.
  rewrite bind_filter_count.
  assert (unresolved df (refs fein_condition) = unresolved df ["EmployerFEIN"])
    as ->.
  { unfold unresolved. simpl. by destruct (negb _). }
  destruct (unresolved df ["EmployerFEIN"]) eqn:Hfein; [reflexivity|].
  rewrite bind_when_append.
  rewrite bind_filter_count. resolve_with Hcat. rewrite bind_when_append.
  rewrite bind_filter_count. resolve_with Hcat. rewrite when_append.
  unfold report, rule_catalog. rewrite flat_map_app.
  cbn [flat_map]. rewrite app_nil_r, <- !app_assoc.
  reflexivity.
Qed.

(** [validation_results] in closed form. *)
Lemma validation_results_spec (df : DataFrame) :
  validation_results df =
  match unresolved df referenced_columns with
  | Some name => Raise (AnalysisException name)
  | None => Ok (report df)
  end.
Proof.
  unfold validation_results. rewrite validation_rules_spec.
  by destruct (unresolved df referenced_columns).
Qed.

Lemma validation_results_Ok (df : DataFrame) (results : list Issue) :
  validation_results df = Ok results ->
  unresolved df referenced_columns = None /\ results = report df.
Proof.
  rewrite validation_results_spec.
  destruct (unresolved df referenced_columns); [discriminate|].
  intros [= <-]. done.
Qed.

(** ** What each condition selects *)

Lemma keeps_true (c : Column bool) (r : Row) :
  keeps c r = true <-> eval c r = Some true.
Proof.
  unfold keeps. destruct (eval c r) as [[]|]; split; congruence.
Qed.

Lemma keeps_null_condition (f : string) (r : Row) :
  keeps (null_condition f) r = bool_decide (r !! f = None).
Proof.
  unfold keeps, null_condition. simpl. by destruct (r !! f).
Qed.

Lemma keeps_pattern (f : string) (body : regex) (r : Row) :
  keeps (isNotNull (col f) &. ~. rlike (col f) body)%col r =
  match r !! f with
  | Some v => negb (rlike_string v body)
  | None => false
  end.
Proof.
  unfold keeps. simpl. destruct (r !! f) as [v|]; simpl; [|reflexivity].
  by destruct (rlike_string v body).
Qed.

Lemma keeps_numeric_condition (f : string) (r : Row) :
  keeps (numeric_condition f) r =
  match r !! f with
  | Some v => match string_to_double v with Some _ => false | None => true end
  | None => false
  end.
Proof.
  unfold keeps. simpl. destruct (r !! f) as [v|]; simpl; [|reflexivity].
  by destruct (string_to_double v).
Qed.

Lemma keeps_date_order_condition (r : Row) :
  keeps date_order_condition r = end_before_start r.
Proof.
  unfold keeps, end_before_start. simpl.
  destruct (r !! "FAMLIPremiumEndDate") as [e|]; simpl; [|reflexivity].
  destruct (string_to_date e) as [end_date|]; simpl.
  - destruct (r !! "FAMLIPremiumStartDate") as [st|]; simpl; [|reflexivity].
    destruct (string_to_date st) as [start_date|]; simpl; [|reflexivity].
    unfold ordered_ltb, date_Ordered. by destruct (end_date <? start_date)%Z.
  - destruct (r !! "FAMLIPremiumStartDate") as [st|]; simpl; [|reflexivity].
    by destruct (string_to_date st).
Qed.

Lemma keeps_contribution_condition (r : Row) :
  keeps contribution_condition r = wage_violation r.
Proof.
  unfold keeps, wage_violation, subject_exceeds_gross, ytd_below_gross. simpl.
  unfold ordered_ltb, string_Ordered.
  destruct (r !! "SubjectWagesThisQtr") as [subject|],
    (r !! "GrossWagesThisQtr") as [gross|],
    (r !! "YearToDateWages") as [ytd|]; simpl; try reflexivity.
  - by destruct (String.ltb gross subject), (String.ltb ytd gross).
  - by destruct (String.ltb gross subject).
  - by destruct (String.ltb ytd gross).
Qed.

(** A format rule selects the rows whose value it rejects. *)
Lemma keeps_format_rule (rl : rule) (r : Row) :
  is_format_rule rl = true -> keeps (rule_condition rl) r = malformed rl r.
Proof.
  destruct rl; simpl; try discriminate; intros _.
  - apply keeps_pattern.
  - apply keeps_numeric_condition.
  - apply keeps_pattern.
Qed.

Lemma filter_ext_bool {A} (p q : A -> bool) (l : list A) :
  (forall x, p x = q x) -> List.filter p l = List.filter q l.
Proof. intros H. induction l as [|x l IH]; simpl; [done|]. by rewrite H, IH. Qed.

(** ** The report *)

Lemma elem_of_flat_map {A B} (f : A -> list B) (l : list A) (y : B) :
  y ∈ flat_map f l <-> exists x, x ∈ l /\ y ∈ f x.
Proof.
  rewrite list_elem_of_In, in_flat_map.
  split; intros (x & Hx & Hy); exists x; by rewrite ?list_elem_of_In in *.
Qed.

Lemma elem_of_emit (df : DataFrame) (rl : rule) (i : Issue) :
  i ∈ emit df rl <->
  0 < violations df (rule_condition rl) /\
  i = mkIssue (fst (rule_label rl)) (snd (rule_label rl))
        (violations df (rule_condition rl)).
Proof.
  unfold emit. destruct (Nat.ltb_spec 0 (violations df (rule_condition rl))).
  - rewrite list_elem_of_singleton. split; [by intros ->|by intros [_ ->]].
  - rewrite elem_of_nil. split; [done|]. intros [? _]. lia.
Qed.

Lemma elem_of_report (df : DataFrame) (i : Issue) :
  i ∈ report df <->
  exists rl, rl ∈ rule_catalog /\
    0 < violations df (rule_condition rl) /\
    i = mkIssue (fst (rule_label rl)) (snd (rule_label rl))
          (violations df (rule_condition rl)).
Proof.
  unfold report. rewrite elem_of_flat_map.
  split; intros (rl & Hrl & H); exists rl; by rewrite ?elem_of_emit in *.
Qed.

(** The labels of the catalog, written out. *)
Lemma rule_order_explicit :
  rule_order =
  [ ("DocumentCount", "Missing required field: DocumentCount");
    ("AmendedReturn", "Missing required field: AmendedReturn");
    ("FAMLIPremiumStartDate", "Missing required field: FAMLIPremiumStartDate");
    ("FAMLIPremiumStartDate", "Invalid date format in FAMLIPremiumStartDate");
    ("FAMLIPremiumEndDate", "Missing required field: FAMLIPremiumEndDate");
    ("FAMLIPremiumEndDate", "Invalid date format in FAMLIPremiumEndDate");
    ("SettlementDate", "Missing required field: SettlementDate");
    ("EmployerLegalName", "Missing required field: EmployerLegalName");
    ("BusAdrStreet1", "Missing required field: BusAdrStreet1");
    ("BusAdrCity", "Missing required field: BusAdrCity");
    ("BusAdrStateCode", "Missing required field: BusAdrStateCode");
    ("BusAdrPostalCode", "Missing required field: BusAdrPostalCode");
    ("BusAdrCountry", "Missing required field: BusAdrCountry");
    ("TotalWagesThisPeriod", "Missing required field: TotalWagesThisPeriod");
    ("TotalWagesThisPeriod", "Invalid numeric value in TotalWagesThisPeriod");
    ("PaymentAmountTotal", "Missing required field: PaymentAmountTotal");
    ("PaymentAmountTotal", "Invalid numeric value in PaymentAmountTotal");
    ("IsFinalReturn", "Missing required field: IsFinalReturn");
    ("EmployeeSSN", "Missing required field: EmployeeSSN");
    ("EmployeeFirstName", "Missing required field: EmployeeFirstName");
    ("EmployeeLastName", "Missing required field: EmployeeLastName");
    ("YearToDateWages", "Missing required field: YearToDateWages");
    ("YearToDateWages", "Invalid numeric value in YearToDateWages");
    ("GrossWagesThisQtr", "Missing required field: GrossWagesThisQtr");
    ("GrossWagesThisQtr", "Invalid numeric value in GrossWagesThisQtr");
    ("SubjectWagesThisQtr", "Missing required field: SubjectWagesThisQtr");
    ("SubjectWagesThisQtr", "Invalid numeric value in SubjectWagesThisQtr");
    ("FAMLIContributionThisQtr",
     "Missing required field: FAMLIContributionThisQtr");
    ("FAMLIContributionThisQtr",
     "Invalid numeric value in FAMLIContributionThisQtr");
    ("EmployeeSSN", "Invalid SSN format");
    ("BusAdrStateCode", "Invalid state code format");
    ("BusAdrPostalCode", "Invalid postal code format");
    ("EmployerFEIN", "Invalid FEIN format");
    ("FAMLIPremiumDates", "End date is before start date");
    ("WagesCalculation", "Invalid wage calculations") ].
Proof. reflexivity. Qed.

Lemma rule_order_NoDup : NoDup rule_order.
Proof. apply (bool_decide_unpack _). by vm_compute. Qed.

Lemma NoDup_fmap_elem_inj {A B} (f : A -> B) (l : list A) (x y : A) :
  NoDup (f <$> l) -> x ∈ l -> y ∈ l -> f x = f y -> x = y.
Proof.
  induction l as [|a l IH]; [by rewrite elem_of_nil|].
  rewrite fmap_cons, NoDup_cons, !elem_of_cons. intros [Ha Hl] Hx Hy Hxy.
  destruct Hx as [->|Hx], Hy as [->|Hy]; [done| | |by apply IH].
  - destruct Ha. rewrite Hxy. by apply list_elem_of_fmap_2.
  - destruct Ha. rewrite <- Hxy. by apply list_elem_of_fmap_2.
Qed.

(** Two rules of the catalog with the same label are the same rule. *)
Lemma rule_label_inj (rl1 rl2 : rule) :
  rl1 ∈ rule_catalog -> rl2 ∈ rule_catalog ->
  rule_label rl1 = rule_label rl2 -> rl1 = rl2.
Proof. apply NoDup_fmap_elem_inj, rule_order_NoDup. Qed.

Lemma labels_sublist (df : DataFrame) (rules : list rule) :
  label <$> flat_map (emit df) rules `sublist_of` rule_label <$> rules.
Proof.
  induction rules as [|rl rules IH]; [constructor|].
  simpl flat_map. rewrite fmap_app, fmap_cons. unfold emit at 1.
  destruct (0 <? violations df (rule_condition rl))%nat; simpl.
  - unfold label at 1. simpl. rewrite <- surjective_pairing.
    by apply sublist_skip.
  - by apply sublist_cons.
Qed.

(** ** The claims about the report *)

(** C3. Every issue of the report has a count of at least one, and a
    rule of the catalog that selects no row has no issue in the report:
    no issue carries its label. *)
Theorem issue_counts_positive (df : DataFrame) (results : list Issue) :
  validation_results df = Ok results ->
  Forall (fun i => 1 <= count i) results /\
  forall rl, rl ∈ rule_catalog ->
    violations df (rule_condition rl) = 0 ->
    forall i, i ∈ results -> label i <> rule_label rl.
Proof.
  intros [_ ->]%validation_results_Ok. split.
  - apply Forall_forall. intros i (rl & _ & Hpos & ->)%elem_of_report.
    simpl. lia.
  - intros rl Hrl Hzero i (rl' & Hrl' & Hpos & ->)%elem_of_report Hlabel.
    unfold label in Hlabel. simpl in Hlabel.
    rewrite <- surjective_pairing in Hlabel.
    apply rule_label_inj in Hlabel as ->; [lia|done..].
Qed.

(** C7. The labels of the report's issues, in the order of the report,
    are a subsequence of [rule_order]: the catalog fields in declared
    order, each with its presence issue before its format issue, then
    SSN, state code, postal code, FEIN, then the order of the premium
    dates, then the wages.  No label occurs twice in [rule_order], so the
    position of an issue is determined by its label. *)
Theorem report_order (df : DataFrame) (results : list Issue) :
  validation_results df = Ok results ->
  label <$> results `sublist_of` rule_order /\ NoDup rule_order.
Proof.
  intros [_ ->]%validation_results_Ok.
  split; [apply labels_sublist | apply rule_order_NoDup].
Qed.

Lemma report_nil (df : DataFrame) :
  Forall (fun rl => violations df (rule_condition rl) = 0) rule_catalog ->
  report df = [].
Proof.
  unfold report. induction 1 as [|rl rules Hrl _ IH]; [reflexivity|].
  simpl. unfold emit at 1. by rewrite Hrl.
Qed.

(** C1. On a frame that has every referenced column and on which no
    rule selects a row, the rules finish with an empty list of issues;
    [createDataFrame] then raises on that empty list, so the job fails
    before anything is handed to the writer. *)
Theorem empty_report_raises (df : DataFrame) (output_path timestamp : string) :
  unresolved df referenced_columns = None ->
  Forall (fun rl => violations df (rule_condition rl) = 0) rule_catalog ->
  validation_results df = Ok [] /\
  validate_data_quality df output_path timestamp =
    Raise (ValueError "can not infer schema from empty dataset").
Proof.
  intros Hcols Hzero.
  assert (validation_results df = Ok []) as Hres.
  { by rewrite validation_results_spec, Hcols, report_nil. }
  split; [done|]. unfold validate_data_quality. by rewrite Hres.
Qed.

(** A frame that lacks a referenced column makes the rules raise. *)
Lemma missing_column_raises (df : DataFrame) (name : string) :
  name ∈ referenced_columns -> name ∉ columns df ->
  exists missing, (missing ∉ columns df) /\
    validation_results df = Raise (AnalysisException missing).
Proof.
  intros Hin Hnot. rewrite validation_results_spec.
  destruct (unresolved df referenced_columns) as [missing|] eqn:Hun.
  - exists missing. by apply unresolved_Some_not_in in Hun as [_ ?].
  - apply unresolved_None in Hun. rewrite Forall_forall in Hun.
    destruct Hnot. by apply Hun.
Qed.

Lemma violations_all (df : DataFrame) (c : Column bool) :
  Forall (fun r => keeps c r = true) (rows df) ->
  violations df c = length (rows df).
Proof.
  unfold violations. induction 1 as [|r l Hr _ IH]; simpl; [done|].
  rewrite Hr. simpl. by rewrite IH.
Qed.

Lemma violations_none (df : DataFrame) (c : Column bool) :
  Forall (fun r => keeps c r = false) (rows df) ->
  violations df c = 0.
Proof.
  unfold violations. induction 1 as [|r l Hr _ IH]; simpl; [done|].
  by rewrite Hr.
Qed.

Lemma field_rules_catalog (item : string * string) (rl : rule) :
  item ∈ required_fields -> rl ∈ field_rules item -> rl ∈ rule_catalog.
Proof.
  intros Hitem Hrl. unfold rule_catalog. apply elem_of_app. left.
  apply elem_of_flat_map. by exists item.
Qed.

(** The rules whose issue carries the name of a catalog field: the
    presence rule and the format rules on that field. *)
Lemma rule_of_field (f data_type : string) (rl : rule) :
  (f, data_type) ∈ required_fields -> rl ∈ rule_catalog ->
  (fst (rule_label rl)) = f ->
  rl = RequiredField f \/
  (is_format_rule rl = true /\
   forall r, r !! f = None -> malformed rl r = false).
Proof.
  intros Hf Hrl Hlabel.
  assert (f <> "FAMLIPremiumDates" /\ f <> "WagesCalculation") as [Hd Hw].
  { apply (list_elem_of_fmap_2 fst) in Hf. simpl in Hf.
    split; intros ->; revert Hf; apply (bool_decide_unpack _); by vm_compute. }
  destruct rl as [g|g|g|g description body| |]; simpl in Hlabel; subst.
  - by left.
  - right. split; [done|]. intros r Hr. simpl. by rewrite Hr.
  - right. split; [done|]. intros r Hr. simpl. by rewrite Hr.
  - right. split; [done|]. intros r Hr. simpl. by rewrite Hr.
  - done.
  - done.
Qed.

(** C2, as the script has it.  A catalog field that is not a column of
    the frame is not read as null: resolving its name raises.  When
    every referenced column is there, the frame has a row, and a catalog
    field is null in every row, the rules finish; the report has the
    issue 'Missing required field: <field>' with the number of rows as
    its count; and that is the only issue under the field's name, the
    format rules on the field having selected no row. *)
Theorem all_null_field_report (df : DataFrame) (f data_type : string) :
  (f, data_type) ∈ required_fields ->
  (f ∉ columns df ->
   exists missing, (missing ∉ columns df) /\
     validation_results df = Raise (AnalysisException missing)) /\
  (unresolved df referenced_columns = None ->
   rows df <> [] ->
   Forall (fun r => r !! f = None) (rows df) ->
   exists results, validation_results df = Ok results /\
     mkIssue f ("Missing required field: " ++ f) (length (rows df)) ∈ results /\
     (forall i, i ∈ results -> field i = f ->
        i = mkIssue f ("Missing required field: " ++ f) (length (rows df))) /\
     forall rl, rl ∈ rule_catalog -> is_format_rule rl = true ->
       (fst (rule_label rl)) = f -> violations df (rule_condition rl) = 0).
Proof.
  intros Hf. split.
  { intros Hnot. apply (missing_column_raises df f); [|done].
    unfold referenced_columns. apply elem_of_app. left.
    by apply (list_elem_of_fmap_2 fst) in Hf. }
  intros Hcols Hrows Hnull.
  assert (violations df (rule_condition (RequiredField f)) = length (rows df))
    as Hcount.
  { apply violations_all. eapply Forall_impl; [exact Hnull|].
    intros r Hr. simpl. rewrite keeps_null_condition.
    by apply bool_decide_eq_true. }
  assert (forall rl, rl ∈ rule_catalog -> is_format_rule rl = true ->
            (fst (rule_label rl)) = f -> violations df (rule_condition rl) = 0)
    as Hformat.
  { intros rl Hrl Hfmt Hlabel. apply violations_none.
    eapply Forall_impl; [exact Hnull|]. intros r Hr. simpl.
    rewrite keeps_format_rule by done.
    destruct (rule_of_field f data_type rl Hf Hrl Hlabel) as [->|[_ H]];
      [done|by apply H]. }
  exists (report df). split; [by rewrite validation_results_spec, Hcols|].
  split; [|split; [|done]].
  - apply elem_of_report. exists (RequiredField f). split; [|split].
    + apply (field_rules_catalog (f, data_type)); [done|]. simpl. by left.
    + rewrite Hcount. destruct (rows df); [done|simpl; lia].
    + by rewrite Hcount.
  - intros i (rl & Hrl & Hpos & ->)%elem_of_report Hfield. simpl in Hfield.
    destruct (rule_of_field f data_type rl Hf Hrl Hfield) as [->|[Hfmt _]].
    + by rewrite Hcount.
    + rewrite (Hformat rl Hrl Hfmt Hfield) in Hpos. lia.
Qed.

Lemma malformed_format_rule (rl : rule) (r : Row) :
  malformed rl r = true -> is_format_rule rl = true.
Proof. by destruct rl. Qed.

(** C4, as the script has it.  When the frame has every referenced
    column, no rule raises, whatever the values are: the rules finish
    with a report.  A row whose value a format rule rejects is selected
    by that rule, and the report has the rule's issue, whose count is the
    number of rows with a rejected value. *)
Theorem malformed_values_never_raise (df : DataFrame) :
  unresolved df referenced_columns = None ->
  exists results, validation_results df = Ok results /\
    forall rl r, rl ∈ rule_catalog -> r ∈ rows df -> malformed rl r = true ->
      keeps (rule_condition rl) r = true /\
      1 <= length (List.filter (malformed rl) (rows df)) /\
      mkIssue (fst (rule_label rl)) (snd (rule_label rl))
        (length (List.filter (malformed rl) (rows df))) ∈ results.
Proof.
  intros Hcols. exists (report df).
  split; [by rewrite validation_results_spec, Hcols|].
  intros rl r Hrl Hr Hbad.
  pose proof (malformed_format_rule rl r Hbad) as Hfmt.
  assert (violations df (rule_condition rl) =
          length (List.filter (malformed rl) (rows df))) as Hcount.
  { unfold violations. f_equal. apply filter_ext_bool.
    intros r'. by apply keeps_format_rule. }
  assert (1 <= length (List.filter (malformed rl) (rows df))) as Hpos.
  { assert (r ∈ List.filter (malformed rl) (rows df)) as Hin.
    { apply list_elem_of_In, filter_In. by rewrite <- list_elem_of_In. }
    destruct (List.filter (malformed rl) (rows df)); [|simpl; lia].
    by apply elem_of_nil in Hin. }
  split; [by rewrite keeps_format_rule|]. split; [done|].
  apply elem_of_report. exists rl. rewrite Hcount. split; [done|].
  split; [lia|done].
Qed.

(** C5. The rule on the order of the premium dates selects a row
    exactly when both dates are present, both parse, and the end date is
    strictly earlier than the start date; its count is the number of such
    rows.  A row with a null or an unparsed date is not selected, and
    nothing is raised for it. *)
Theorem date_order_counts (df : DataFrame) (st : list Issue) :
  "FAMLIPremiumEndDate" ∈ columns df ->
  "FAMLIPremiumStartDate" ∈ columns df ->
  filter_count df date_order_condition st =
    Ok (length (List.filter end_before_start (rows df)), st) /\
  forall r, keeps date_order_condition r = true <->
    exists e s end_date start_date,
      r !! "FAMLIPremiumEndDate" = Some e /\
      r !! "FAMLIPremiumStartDate" = Some s /\
      string_to_date e = Some end_date /\
      string_to_date s = Some start_date /\
      (end_date < start_date)%Z.
Proof.
  intros Hend Hstart. split.
  - unfold filter_count, lift, DataFrame_filter.
    assert (unresolved df (refs date_order_condition) = None) as ->.
    { apply unresolved_None. simpl. by repeat constructor. }
    simpl. do 2 f_equal. unfold DataFrame_count. simpl. f_equal.
    apply filter_ext_bool, keeps_date_order_condition.
  - intros r. rewrite keeps_date_order_condition. unfold end_before_start.
    split.
    + destruct (r !! "FAMLIPremiumEndDate") as [e|]; [|done].
      destruct (r !! "FAMLIPremiumStartDate") as [s|]; [|done].
      destruct (string_to_date e) as [end_date|] eqn:He; [|done].
      destruct (string_to_date s) as [start_date|] eqn:Hs; [|done].
      intros Hlt%Z.ltb_lt. by exists e, s, end_date, start_date.
    + intros (e & s & end_date & start_date & -> & -> & -> & -> & Hlt).
      by apply Z.ltb_lt.
Qed.

Lemma filter_flat_map_emit (df : DataFrame) (p : string -> bool)
    (rules : list rule) :
  List.filter (fun i => p (field i)) (flat_map (emit df) rules) =
  flat_map (emit df) (List.filter (fun rl => p (fst (rule_label rl))) rules).
Proof.
  induction rules as [|rl rules IH]; [reflexivity|].
  simpl. rewrite List.filter_app, IH.
  destruct (p (fst (rule_label rl))) eqn:Hp; simpl; [f_equal|];
    unfold emit; destruct (0 <? _)%nat; simpl; by rewrite ?Hp.
Qed.

Lemma filter_or_length {A} (p q : A -> bool) (l : list A) :
  length (List.filter (fun x => p x || q x) l)
  + length (List.filter (fun x => p x && q x) l)
  = length (List.filter p l) + length (List.filter q l).
Proof.
  induction l as [|x l IH]; simpl; [reflexivity|].
  destruct (p x), (q x); simpl; lia.
Qed.

(** C6. The wage rule selects the rows that satisfy
    [SubjectWagesThisQtr > GrossWagesThisQtr] or
    [YearToDateWages < GrossWagesThisQtr]; the issues of the report under
    'WagesCalculation' are at most the one carrying the number of those
    rows.  A row that satisfies both clauses is in that number once: the
    number, plus the rows satisfying both, is the sum of the two clauses'
    own numbers. *)
Theorem wage_rule_single_count (df : DataFrame) (results : list Issue) :
  validation_results df = Ok results ->
  List.filter (fun i => String.eqb (field i) "WagesCalculation") results =
    (if (0 <? length (List.filter wage_violation (rows df)))%nat
     then [mkIssue "WagesCalculation" "Invalid wage calculations"
             (length (List.filter wage_violation (rows df)))]
     else []) /\
  length (List.filter wage_violation (rows df))
  + length (List.filter (fun r => subject_exceeds_gross r && ytd_below_gross r)
              (rows df))
  = length (List.filter subject_exceeds_gross (rows df))
    + length (List.filter ytd_below_gross (rows df)).
Proof.
  intros [_ ->]%validation_results_Ok. split; [|apply filter_or_length].
  unfold report.
  rewrite (filter_flat_map_emit df (fun f => String.eqb f "WagesCalculation")).
  change (List.filter _ rule_catalog) with [WageConsistency].
  simpl flat_map. rewrite app_nil_r. unfold emit, violations. simpl.
  by rewrite (filter_ext_bool _ _ _ keeps_contribution_condition).
Qed.

(** C8. The frame handed to the writer does not depend on the
    timestamp: two runs on one frame that differ in their clock reading
    fail alike or write the same records in the same order.  When a run
    succeeds, what it writes is the list the rules produced, a function
    of the frame alone, and the timestamp is found in the path only. *)
Theorem report_independent_of_timestamp (df : DataFrame)
    (output_path timestamp1 timestamp2 : string) :
  result_map frame (validate_data_quality df output_path timestamp1) =
  result_map frame (validate_data_quality df output_path timestamp2) /\
  forall written,
    validate_data_quality df output_path timestamp1 = Ok written ->
    validation_results df = Ok (frame written) /\
    path written = (output_path ++ "/validation_results_" ++ timestamp1)%string.
Proof.
  unfold validate_data_quality.
  destruct (validation_results df) as [results|e]; simpl.
  - destruct results as [|i results]; simpl; [by split|].
    split; [done|]. by intros written [= <-].
  - by split.
Qed.

(** C9. A premium date that matches the date pattern but that the
    cast to a date turns into null is not selected by the rule 'Invalid
    date format', and its row is not selected by the rule on the order of
    the dates either: the format check accepts a value that the ordering
    rule cannot use. *)
Theorem pattern_date_unparsed (r : Row) (f v : string) :
  f = "FAMLIPremiumStartDate" \/ f = "FAMLIPremiumEndDate" ->
  r !! f = Some v ->
  rlike_string v date_pattern = true ->
  string_to_date v = None ->
  keeps (date_format_condition f) r = false /\
  keeps date_order_condition r = false.
Proof.
  intros Hf Hv Hmatch Hparse. split.
  - unfold date_format_condition. by rewrite keeps_pattern, Hv, Hmatch.
  - rewrite keeps_date_order_condition. unfold end_before_start.
    destruct Hf as [-> | ->]; rewrite Hv, Hparse.
    + destruct (r !! "FAMLIPremiumEndDate") as [e|]; [|done].
      by destruct (string_to_date e).
    + by destruct (r !! "FAMLIPremiumStartDate").
Qed.

(** C10. The wage rule is a three-valued disjunction.  A row is
    selected exactly when one of the two comparisons is true.  A null
    operand makes its comparison null, not false, and the row is still
    selected when the other comparison is true.  A row whose three wage
    fields are null is not selected. *)
Theorem wage_rule_three_valued (r : Row) :
  (keeps contribution_condition r = true <->
   eval (col "SubjectWagesThisQtr" >. col "GrossWagesThisQtr")%col r = Some true
   \/ eval (col "YearToDateWages" <. col "GrossWagesThisQtr")%col r = Some true)
  /\
  (r !! "SubjectWagesThisQtr" = None ->
   eval (col "SubjectWagesThisQtr" >. col "GrossWagesThisQtr")%col r = None /\
   (eval (col "YearToDateWages" <. col "GrossWagesThisQtr")%col r = Some true ->
    keeps contribution_condition r = true))
  /\
  (r !! "YearToDateWages" = None ->
   eval (col "YearToDateWages" <. col "GrossWagesThisQtr")%col r = None /\
   (eval (col "SubjectWagesThisQtr" >. col "GrossWagesThisQtr")%col r = Some true ->
    keeps contribution_condition r = true))
  /\
  (r !! "SubjectWagesThisQtr" = None ->
   r !! "GrossWagesThisQtr" = None ->
   r !! "YearToDateWages" = None ->
   keeps contribution_condition r = false).
Proof.
  unfold keeps, contribution_condition. simpl.
  destruct (r !! "SubjectWagesThisQtr") as [subject|],
    (r !! "GrossWagesThisQtr") as [gross|],
    (r !! "YearToDateWages") as [ytd|]; simpl;
    repeat match goal with
    | |- context [ordered_ltb ?x ?y] => destruct (ordered_ltb x y)
    end; simpl;
    repeat split; try done; try (intros [?|?]; done); try (by left); by right.
Qed.

(** ** Further properties of the rules and of the job *)



Lemma violations_pos (df : DataFrame) (c : Column bool) :
  0 < violations df c <-> exists r, r ∈ rows df /\ keeps c r = true.
Proof.
  unfold violations. split.
  - destruct (List.filter (keeps c) (rows df)) as [|r l] eqn:Hf;
      [simpl; lia|]. intros _. exists r.
    assert (In r (List.filter (keeps c) (rows df))) as Hin
      by (rewrite Hf; by left).
    apply filter_In in Hin as [Hin Hk]. by rewrite list_elem_of_In.
  - intros (r & Hr & Hk).
    assert (In r (List.filter (keeps c) (rows df))) as Hin.
    { apply filter_In. by rewrite <- list_elem_of_In. }
    destruct (List.filter (keeps c) (rows df)); [done|simpl; lia].
Qed.



Lemma length_filter_le {A} (p : A -> bool) (l : list A) :
  length (List.filter p l) <= length l.
Proof.
  induction l as [|x l IH]; simpl; [lia|]. destruct (p x); simpl; lia.
Qed.

Lemma length_filter_Permutation {A} (p : A -> bool) (l l' : list A) :
  l ≡ₚ l' -> length (List.filter p l) = length (List.filter p l').
Proof.
  induction 1 as [|x l l' _ IH|x y l|l l' l'' _ IH1 _ IH2]; simpl.
  - reflexivity.
  - destruct (p x); simpl; by rewrite IH.
  - by destruct (p x), (p y).
  - by rewrite IH1.
Qed.

(** Two frames on which every rule counts the same have the same
    report. *)
Lemma report_ext (df df' : DataFrame) :
  Forall (fun rl => violations df (rule_condition rl)
                    = violations df' (rule_condition rl)) rule_catalog ->
  report df = report df'.
Proof.
  unfold report. induction 1 as [|rl rules Hrl _ IH]; [reflexivity|].
  simpl. unfold emit at 1 3. by rewrite Hrl, IH.
Qed.

(** X3. The report does not depend on the order of the rows: two frames
    with the same columns whose rows are a permutation of each other
    give the same result, issue for issue. *)
Theorem report_permutation_invariant (df df' : DataFrame) :
  columns df = columns df' ->
  rows df ≡ₚ rows df' ->
  validation_results df = validation_results df'.
Proof.
  intros Hcols Hrows. rewrite !validation_results_spec.
  unfold unresolved. rewrite Hcols.
  destruct (find _ referenced_columns); [reflexivity|].
  f_equal. apply report_ext, Forall_forall. intros rl _.
  by apply length_filter_Permutation.
Qed.

(** X4. No issue counts more rows than the frame has. *)
Theorem issue_counts_bounded (df : DataFrame) (results : list Issue) :
  validation_results df = Ok results ->
  Forall (fun i => count i <= length (rows df)) results.
Proof.
  intros [_ ->]%validation_results_Ok. apply Forall_forall.
  intros i (rl & _ & _ & ->)%elem_of_report. simpl. apply length_filter_le.
Qed.

(** X5. No label occurs twice in a report, so a report has at most as many
    issues as the catalog has rules, which is 35. *)
Theorem report_labels_unique (df : DataFrame) (results : list Issue) :
  validation_results df = Ok results ->
  NoDup (label <$> results) /\ length results <= 35.
Proof.
  intros [_ ->]%validation_results_Ok.
  pose proof (labels_sublist df rule_catalog) as Hsub.
  split.
  - eapply sublist_NoDup; [apply rule_order_NoDup|exact Hsub].
  - apply sublist_length in Hsub. rewrite !length_fmap in Hsub.
    exact Hsub.
Qed.

(** Every condition selects the rows of its two-valued reading. *)
Lemma keeps_selects (rl : rule) (r : Row) :
  keeps (rule_condition rl) r = selects rl r.
Proof.
  destruct rl; simpl.
  - apply keeps_null_condition.
  - apply keeps_pattern.
  - apply keeps_numeric_condition.
  - apply keeps_pattern.
  - apply keeps_date_order_condition.
  - apply keeps_contribution_condition.
Qed.

Lemma length_filter_disjoint {A} (p q : A -> bool) (l : list A) :
  (forall x, p x = true -> q x = false) ->
  length (List.filter p l) + length (List.filter q l) <= length l.
Proof.
  intros H. induction l as [|x l IH]; simpl; [lia|].
  destruct (p x) eqn:Hp; [rewrite (H x Hp)|destruct (q x)]; simpl; lia.
Qed.

(** X6. A null is a missing value and never a format violation: the row
    that the presence rule counts for a field is counted by no format
    rule on that field, so the two counts together do not exceed the
    number of rows. *)
Theorem null_not_format_violation (df : DataFrame) (rl : rule) :
  is_format_rule rl = true ->
  (forall r, keeps (null_condition (fst (rule_label rl))) r = true ->
     keeps (rule_condition rl) r = false) /\
  violations df (null_condition (fst (rule_label rl)))
  + violations df (rule_condition rl) <= length (rows df).
Proof.
  intros Hfmt.
  assert (forall r, keeps (null_condition (fst (rule_label rl))) r = true ->
            keeps (rule_condition rl) r = false) as Hrow.
  { intros r. rewrite keeps_null_condition, keeps_selects.
    intros Hnull%bool_decide_eq_true.
    destruct rl; simpl in *; try discriminate; by rewrite Hnull. }
  split; [exact Hrow|]. by apply length_filter_disjoint.
Qed.

Lemma selects_agree (rl : rule) (r r' : Row) :
  Forall (fun c => r !! c = r' !! c) (refs (rule_condition rl)) ->
  selects rl r = selects rl r'.
Proof.
  destruct rl; simpl; rewrite ?Forall_cons;
    unfold end_before_start, wage_violation, subject_exceeds_gross,
      ytd_below_gross.
  - by intros [-> _].
  - by intros [-> _].
  - by intros [-> _].
  - by intros [-> _].
  - by intros (-> & -> & _).
  - by intros (-> & -> & -> & _).
Qed.

Lemma rule_catalog_refs :
  Forall (fun rl => Forall (fun c => c ∈ referenced_columns)
                      (refs (rule_condition rl))) rule_catalog.
Proof. apply (bool_decide_unpack _). by vm_compute. Qed.

Lemma length_filter_Forall2 {A} (R : A -> A -> Prop) (p : A -> bool)
    (l l' : list A) :
  (forall x y, R x y -> p x = p y) ->
  Forall2 R l l' ->
  length (List.filter p l) = length (List.filter p l').
Proof.
  intros H. induction 1 as [|x y l l' Hxy _ IH]; simpl; [reflexivity|].
  rewrite (H x y Hxy). destruct (p y); simpl; by rewrite IH.
Qed.

(** X7. The rules read the referenced columns and nothing else: two frames
    with the same columns whose rows agree, one by one, on the 22
    referenced columns give the same result, whatever their rows hold
    under other names. *)
Theorem report_depends_on_referenced_columns (df df' : DataFrame) :
  columns df = columns df' ->
  Forall2 (fun r r' => Forall (fun c => r !! c = r' !! c) referenced_columns)
    (rows df) (rows df') ->
  validation_results df = validation_results df'.
Proof.
  intros Hcols Hrows. rewrite !validation_results_spec.
  unfold unresolved. rewrite Hcols.
  destruct (find _ referenced_columns); [reflexivity|].
  f_equal. apply report_ext.
  eapply Forall_impl; [apply rule_catalog_refs|]. simpl. intros rl Hrefs.
  unfold violations. eapply length_filter_Forall2; [|exact Hrows].
  simpl. intros r r' Hagree. rewrite !keeps_selects.
  apply selects_agree. rewrite Forall_forall in Hagree.
  eapply Forall_impl; [exact Hrefs|]. simpl. intros c Hc. by apply Hagree.
Qed.

Lemma reported_app (l1 l2 : list Issue) (lbl : string * string) :
  reported (l1 ++ l2) lbl = reported l1 lbl + reported l2 lbl.
Proof.
  unfold reported. by rewrite List.filter_app, fmap_app, sum_list_with_app.
Qed.

(** What a report gives for a label is the sum, over the rules that
    have this label, of the rows they select. *)
Lemma reported_flat_map_emit (df : DataFrame) (lbl : string * string)
    (rules : list rule) :
  reported (flat_map (emit df) rules) lbl =
  sum_list ((fun rl => if bool_decide (rule_label rl = lbl)
                       then violations df (rule_condition rl) else 0)
            <$> rules).
Proof.
  induction rules as [|rl rules IH]; [reflexivity|].
  simpl flat_map. rewrite reported_app, IH, fmap_cons. simpl sum_list.
  f_equal. unfold emit.
  destruct (Nat.ltb_spec 0 (violations df (rule_condition rl))) as [Hpos|Hz].
  - unfold reported. simpl.
    assert (label (mkIssue (fst (rule_label rl)) (snd (rule_label rl))
                     (violations df (rule_condition rl))) = rule_label rl)
      as Hlabel by (symmetry; apply surjective_pairing).
    destruct (decide (rule_label rl = lbl)) as [Heq|Hne].
    + rewrite !bool_decide_eq_true_2 by congruence. simpl. lia.
    + rewrite !bool_decide_eq_false_2 by congruence. reflexivity.
  - unfold reported. simpl. destruct (bool_decide _); lia.
Qed.

Lemma sum_list_selected {A B} `{EqDecision B} (f : A -> B) (g : A -> nat)
    (l : list A) (x : A) :
  NoDup (f <$> l) -> x ∈ l ->
  sum_list ((fun y => if bool_decide (f y = f x) then g y else 0) <$> l)
  = g x.
Proof.
  induction l as [|a l IH]; [by rewrite elem_of_nil|].
  rewrite fmap_cons, NoDup_cons, elem_of_cons. intros [Ha Hl] Hx.
  rewrite fmap_cons. simpl sum_list.
  assert (a ∉ l -> f a ∉ f <$> l ->
          forall z, z ∈ l -> f z = f a -> False) as Hfresh.
  { intros _ Hfa z Hz Hfz. apply Hfa. rewrite <- Hfz.
    by apply list_elem_of_fmap_2. }
  destruct Hx as [->|Hx].
  - rewrite bool_decide_eq_true_2 by done.
    assert (sum_list ((fun y => if bool_decide (f y = f a) then g y else 0)
                      <$> l) = 0) as ->; [|lia].
    clear IH Hl. induction l as [|b l IHl]; [reflexivity|].
    rewrite fmap_cons. simpl sum_list.
    rewrite fmap_cons, not_elem_of_cons in Ha. destruct Ha as [Hne Ha].
    rewrite bool_decide_eq_false_2 by congruence.
    rewrite IHl; [lia|done|].
    intros _ Hfa z Hz Hfz. apply Hfa. rewrite <- Hfz.
    by apply list_elem_of_fmap_2.
  - rewrite bool_decide_eq_false_2.
    + rewrite IH by done. lia.
    + intros Hax. apply Ha. rewrite Hax. by apply list_elem_of_fmap_2.
Qed.

(** X8. The report of a frame cut in two is the sum of the reports of the
    parts: for every label, the count reported on the whole is the sum
    of the counts reported on the two parts (an absent issue counting
    for 0). *)
Theorem reports_add_up (df1 df2 df : DataFrame) (results1 results2 : list Issue) :
  columns df1 = columns df ->
  columns df2 = columns df ->
  rows df = rows df1 ++ rows df2 ->
  validation_results df1 = Ok results1 ->
  validation_results df2 = Ok results2 ->
  exists results, validation_results df = Ok results /\
    forall lbl, reported results lbl
                = reported results1 lbl + reported results2 lbl.
Proof.
  intros Hc1 Hc2 Hrows [Hu1 ->]%validation_results_Ok
    [Hu2 ->]%validation_results_Ok.
  exists (report df). split.
  - rewrite validation_results_spec. unfold unresolved in *.
    by rewrite <- Hc1, Hu1.
  - intros lbl. unfold report. rewrite !reported_flat_map_emit.
    induction rule_catalog as [|rl rules IH]; [reflexivity|].
    rewrite !fmap_cons. simpl sum_list. rewrite IH.
    assert (violations df (rule_condition rl)
            = violations df1 (rule_condition rl)
              + violations df2 (rule_condition rl)) as Hadd.
    { unfold violations. by rewrite Hrows, List.filter_app, length_app. }
    destruct (bool_decide (rule_label rl = lbl)); lia.
Qed.

(** X9. The report states, for every rule of the catalog, the number of
    rows of the rule's two-valued reading: the rows where the field is
    null for a presence rule, the rows with a rejected non-null value for
    a format rule, the rows with both dates parsed and the end before the
    start, the rows with one of the two wage clauses true. *)
Theorem report_counts_two_valued (df : DataFrame) (results : list Issue)
    (rl : rule) :
  validation_results df = Ok results ->
  rl ∈ rule_catalog ->
  reported results (rule_label rl)
  = length (List.filter (selects rl) (rows df)).
Proof.
  intros [_ ->]%validation_results_Ok Hrl. unfold report.
  rewrite reported_flat_map_emit.
  rewrite (sum_list_selected rule_label
             (fun rl => violations df (rule_condition rl)))
    by (done || apply rule_order_NoDup).
  unfold violations. f_equal. apply filter_ext_bool, keeps_selects.
Qed.

Lemma unchecked_fields_have_no_format_rule :
  Forall (fun item : string * string =>
            snd item <> "date" -> snd item <> "numeric" ->
            fst item ∉ ["EmployeeSSN"; "BusAdrStateCode"; "BusAdrPostalCode"] ->
            Forall (fun rl => is_format_rule rl = true ->
                              fst (rule_label rl) <> fst item) rule_catalog)
    required_fields.
Proof. apply (bool_decide_unpack _). by vm_compute. Qed.

(** X10. A catalog field declared ['integer'], ['boolean'], ['datetime'] or
    ['string'], other than the three with a pattern of their own, is
    checked for presence only: when it is null in no row, no issue of the
    report is about it, whatever its values are. *)
Theorem unchecked_types_accept_any_value (df : DataFrame)
    (results : list Issue) (f data_type : string) :
  (f, data_type) ∈ required_fields ->
  data_type <> "date" ->
  data_type <> "numeric" ->
  f ∉ ["EmployeeSSN"; "BusAdrStateCode"; "BusAdrPostalCode"] ->
  Forall (fun r => is_Some (r !! f)) (rows df) ->
  validation_results df = Ok results ->
  Forall (fun i => field i <> f) results.
Proof.
  intros Hf Hdate Hnum Hpat Hsome [_ ->]%validation_results_Ok.
  apply Forall_forall. intros i (rl & Hrl & Hpos & ->)%elem_of_report Hfield.
  simpl in Hfield.
  destruct (rule_of_field f data_type rl Hf Hrl Hfield) as [->|[Hfmt _]].
  - apply violations_pos in Hpos as (r & Hr & Hk). simpl in Hk.
    rewrite keeps_null_condition in Hk. apply bool_decide_eq_true in Hk.
    rewrite Forall_forall in Hsome. destruct (Hsome r Hr) as [v Hv].
    congruence.
  - pose proof unchecked_fields_have_no_format_rule as Hall.
    rewrite Forall_forall in Hall.
    specialize (Hall (f, data_type) Hf Hdate Hnum Hpat).
    rewrite Forall_forall in Hall. by apply (Hall rl Hrl Hfmt).
Qed.

(** X11. Both clauses of the wage rule compare with [GrossWagesThisQtr]: a
    row where it is null is never selected, whatever the two other wages
    are; a selected row has gross wages. *)
Theorem null_gross_never_selected (r : Row) :
  r !! "GrossWagesThisQtr" = None ->
  keeps contribution_condition r = false.
Proof.
  intros Hgross. rewrite keeps_contribution_condition.
  unfold wage_violation, subject_exceeds_gross, ytd_below_gross.
  rewrite Hgross.
  by destruct (r !! "SubjectWagesThisQtr"), (r !! "YearToDateWages").
Qed.

End Engine.

(** ** The values that the patterns accept *)

Lemma string_app_cons (c : ascii) (s t : string) :
  (String c s ++ t)%string = String c (s ++ t).
Proof. reflexivity. Qed.

Lemma string_app_nil_l (t : string) : (EmptyString ++ t)%string = t.
Proof. reflexivity. Qed.

Lemma string_app_nil_r (s : string) : (s ++ EmptyString)%string = s.
Proof.
  induction s as [|c s IH]; [reflexivity|].
  by rewrite string_app_cons, IH.
Qed.

Lemma string_app_assoc (s1 s2 s3 : string) :
  ((s1 ++ s2) ++ s3 = s1 ++ (s2 ++ s3))%string.
Proof.
  induction s1 as [|c s1 IH]; [reflexivity|].
  by rewrite !string_app_cons, IH.
Qed.

(** [iter_match] is sound and complete when the matcher it repeats is. *)
Lemma iter_match_power (m : string -> list string) (L : string -> Prop) :
  (forall s rest, In rest (m s) <-> exists p, s = (p ++ rest)%string /\ L p) ->
  forall n s rest,
    In rest (iter_match m n s) <->
    exists p, s = (p ++ rest)%string /\ power L n p.
Proof.
  intros Hm. induction n as [|n IH]; intros s rest; simpl.
  - split.
    + intros [->|[]]. by exists EmptyString.
    + intros (p & -> & ->). by left.
  - rewrite in_flat_map. split.
    + intros (mid & Hmid & Hrest). apply Hm in Hmid as (p1 & -> & Hp1).
      apply IH in Hrest as (p2 & -> & Hp2).
      exists (p1 ++ p2)%string. split; [by rewrite string_app_assoc|].
      by exists p1, p2.
    + intros (p & -> & p1 & p2 & -> & Hp1 & Hp2).
      exists (p2 ++ rest)%string. split.
      * apply Hm. exists p1. by rewrite string_app_assoc.
      * apply IH. by exists p2.
Qed.

(** The matcher is sound and complete for the language of its pattern:
    the suffixes it returns are those left by a prefix in the language. *)
Lemma rmatch_lang (r : regex) (s rest : string) :
  In rest (rmatch r s) <-> exists p, s = (p ++ rest)%string /\ lang r p.
Proof.
  revert s rest. induction r as [lo hi|a|r1 IH1 r2 IH2|n r IH|r IH];
    intros s rest; simpl.
  - destruct s as [|c s]; simpl.
    + split; [done|]. by intros (p & Hp & c & -> & _).
    + destruct (in_range lo hi c) eqn:Hc; simpl.
      * split.
        -- intros [->|[]]. exists (String c EmptyString). split; [done|].
           by exists c.
        -- intros (p & Hp & c' & -> & _). rewrite string_app_cons, string_app_nil_l in Hp. left. congruence.
      * split; [done|]. intros (p & Hp & c' & -> & Hc'). rewrite string_app_cons, string_app_nil_l in Hp.
        congruence.
  - destruct s as [|c s]; simpl.
    + split; [done|]. by intros (p & Hp & ->).
    + destruct (Ascii.eqb_spec a c) as [->|Hne]; simpl.
      * split.
        -- intros [->|[]]. by exists (String c EmptyString).
        -- intros (p & Hp & ->). rewrite string_app_cons, string_app_nil_l in Hp. left. congruence.
      * split; [done|]. intros (p & Hp & ->). rewrite string_app_cons, string_app_nil_l in Hp. congruence.
  - rewrite in_flat_map. split.
    + intros (mid & Hmid & Hrest). apply IH1 in Hmid as (p1 & -> & Hp1).
      apply IH2 in Hrest as (p2 & -> & Hp2).
      exists (p1 ++ p2)%string. split; [by rewrite string_app_assoc|].
      by exists p1, p2.
    + intros (p & -> & p1 & p2 & -> & Hp1 & Hp2).
      exists (p2 ++ rest)%string. split.
      * apply IH1. exists p1. by rewrite string_app_assoc.
      * apply IH2. by exists p2.
  - by apply iter_match_power.
  - rewrite in_app_iff. split.
    + intros [Hin|[->|[]]].
      * apply IH in Hin as (p & -> & Hp). exists p. by split; [|right].
      * exists EmptyString. by split; [|left].
    + intros (p & -> & [->|Hp]).
      * right. by left.
      * left. apply IH. by exists p.
Qed.

Lemma at_dollar_ends (t : string) : at_dollar t = true <-> In t dollar_ends.
Proof.
  unfold at_dollar, dollar_ends. rewrite orb_true_iff, existsb_exists. simpl.
  split.
  - intros [Ht|(x & Hx & Ht)].
    + apply String.eqb_eq in Ht. by left.
    + apply String.eqb_eq in Ht. subst x. by right.
  - intros [<-|Ht]; [by left|]. right. exists t. split; [done|].
    apply String.eqb_refl.
Qed.

(** [rlike] on a pattern [^body$]: a string of the body, followed by
    nothing or by one line terminator. *)
Lemma rlike_string_lang (s : string) (body : regex) :
  rlike_string s body = true <->
  exists p t, s = (p ++ t)%string /\ lang body p /\ In t dollar_ends.
Proof.
  unfold rlike_string. rewrite existsb_exists. split.
  - intros (t & (p & -> & Hp)%rmatch_lang & Ht%at_dollar_ends).
    by exists p, t.
  - intros (p & t & -> & Hp & Ht). exists t. split.
    + apply rmatch_lang. by exists p.
    + by apply at_dollar_ends.
Qed.

Lemma power_range (lo hi : ascii) (n : nat) (p : string) :
  power (lang (Range lo hi)) n p <->
  String.length p = n /\ all_in_range lo hi p = true.
Proof.
  revert p. induction n as [|n IH]; intros p; simpl.
  - split; [by intros ->|]. intros [Hlen _]. by destruct p.
  - split.
    + intros (s1 & s2 & -> & (c & -> & Hc) & [Hlen Hall]%IH).
      rewrite string_app_cons, string_app_nil_l. simpl.
      by rewrite Hlen, Hc, Hall.
    + destruct p as [|c p]; simpl; [by intros [? _]|].
      intros [[= Hlen] [Hc Hall]%andb_true_iff].
      exists (String c EmptyString), p. split; [done|]. split.
      * by exists c.
      * by apply IH.
Qed.

Lemma lang_lit (a : ascii) (s : string) :
  lang (Lit a) s -> s = String a EmptyString.
Proof. by intros H. Qed.

Lemma lang_times_range (lo hi : ascii) (n : nat) (p : string) :
  lang (Times n (Range lo hi)) p <->
  String.length p = n /\ all_in_range lo hi p = true.
Proof. apply power_range. Qed.

(** X12. The SSN and the FEIN rules accept a value exactly when it is nine
    ASCII digits, followed by nothing or by one line terminator. *)
Theorem nine_digits_pattern_accepts (s : string) :
  rlike_string s nine_digits_pattern = true <->
  exists d t, s = (d ++ t)%string /\
    String.length d = 9 /\ all_in_range "0" "9" d = true /\
    In t dollar_ends.
Proof.
  rewrite rlike_string_lang. unfold nine_digits_pattern, digit.
  split.
  - intros (p & t & -> & [Hlen Hall]%lang_times_range & Ht). by exists p, t.
  - intros (d & t & -> & Hlen & Hall & Ht). exists d, t.
    split; [done|]. split; [|done]. by apply lang_times_range.
Qed.

(** X13. The state-code rule accepts a value exactly when it is two
    upper-case ASCII letters, followed by nothing or by one line
    terminator. *)
Theorem state_code_pattern_accepts (s : string) :
  rlike_string s state_code_pattern = true <->
  exists d t, s = (d ++ t)%string /\
    String.length d = 2 /\ all_in_range "A" "Z" d = true /\
    In t dollar_ends.
Proof.
  rewrite rlike_string_lang. unfold state_code_pattern, upper.
  split.
  - intros (p & t & -> & [Hlen Hall]%lang_times_range & Ht). by exists p, t.
  - intros (d & t & -> & Hlen & Hall & Ht). exists d, t.
    split; [done|]. split; [|done]. by apply lang_times_range.
Qed.

(** X14. The postal-code rule accepts a value exactly when it is five
    digits, or five digits, a dash and four digits, followed by nothing
    or by one line terminator. *)
Theorem postal_code_pattern_accepts (s : string) :
  rlike_string s postal_code_pattern = true <->
  exists d t, s = (d ++ t)%string /\
    String.length d = 5 /\ all_in_range "0" "9" d = true /\
    (In t dollar_ends \/
     exists e t', t = ("-" ++ e ++ t')%string /\
       String.length e = 4 /\ all_in_range "0" "9" e = true /\
       In t' dollar_ends).
Proof.
  rewrite rlike_string_lang. unfold postal_code_pattern, digit, dash.
  split.
  - intros (p & t & -> & (d & o & -> & [Hlen Hall]%lang_times_range & Ho) & Ht).
    exists d, (o ++ t)%string. rewrite string_app_assoc.
    split; [done|]. split; [done|]. split; [done|].
    destruct Ho
      as [->|(dsh & e & -> & ->%lang_lit & [Hlen' Hall']%lang_times_range)].
    + left. exact Ht.
    + right. exists e, t. by rewrite string_app_assoc.
  - intros (d & t & -> & Hlen & Hall & [Ht|(e & t' & -> & Hlen' & Hall' & Ht')]).
    + exists d, t. split; [done|]. split; [|done].
      exists d, EmptyString. split; [by rewrite string_app_nil_r|].
      split; [by apply lang_times_range|by left].
    + exists (d ++ "-" ++ e)%string, t'.
      split; [by rewrite !string_app_assoc|]. split; [|done].
      exists d, ("-" ++ e)%string. split; [done|].
      split; [by apply lang_times_range|]. right.
      exists "-"%string, e. split; [done|]. split; [done|].
      by apply lang_times_range.
Qed.

(** X15. The date-format rule accepts a value exactly when it is four
    digits, a dash, two digits, a dash and two digits, followed by
    nothing or by one line terminator; the digits need not name a day of
    the calendar. *)
Theorem date_pattern_accepts (s : string) :
  rlike_string s date_pattern = true <->
  exists y m d t, s = (y ++ "-" ++ m ++ "-" ++ d ++ t)%string /\
    String.length y = 4 /\ all_in_range "0" "9" y = true /\
    String.length m = 2 /\ all_in_range "0" "9" m = true /\
    String.length d = 2 /\ all_in_range "0" "9" d = true /\
    In t dollar_ends.
Proof.
  rewrite rlike_string_lang. unfold date_pattern, digit, dash. split.
  - intros (p & t & -> & (y & p1 & -> & [Hy Hy']%lang_times_range
                          & (d1 & p2 & -> & ->%lang_lit & m & p3 & ->
                             & [Hm Hm']%lang_times_range
                             & d2 & d & -> & ->%lang_lit
                             & [Hd Hd']%lang_times_range)) & Ht).
    exists y, m, d, t. rewrite !string_app_assoc. by repeat split.
  - intros (y & m & d & t & -> & Hy & Hy' & Hm & Hm' & Hd & Hd' & Ht).
    exists (y ++ "-" ++ m ++ "-" ++ d)%string, t.
    split; [by rewrite !string_app_assoc|]. split; [|done].
    exists y, ("-" ++ m ++ "-" ++ d)%string. split; [done|].
    split; [by apply lang_times_range|].
    exists "-"%string, (m ++ "-" ++ d)%string. split; [done|]. split; [done|].
    exists m, ("-" ++ d)%string. split; [done|].
    split; [by apply lang_times_range|].
    exists "-"%string, d. split; [done|]. split; [done|].
    by apply lang_times_range.
Qed.

(** * The properties on the sample data *)

(** The patterns on the examples of the specification. *)
Example rlike_examples :
  rlike_string "123456789" nine_digits_pattern = true /\
  rlike_string "12345678" nine_digits_pattern = false /\
  rlike_string "12345678A" nine_digits_pattern = false /\
  rlike_string "MA" state_code_pattern = true /\
  rlike_string "ma" state_code_pattern = false /\
  rlike_string "Massachusetts" state_code_pattern = false /\
  rlike_string "02108" postal_code_pattern = true /\
  rlike_string "02108-1234" postal_code_pattern = true /\
  rlike_string "0210" postal_code_pattern = false /\
  rlike_string "02108-12" postal_code_pattern = false /\
  rlike_string "2024-13-45" date_pattern = true /\
  rlike_string "01/01/2024" date_pattern = false.
Proof. repeat split; reflexivity. Qed.

Example dirty_df_report :
  validation_results unsigned_decimal iso_to_date dirty_df = Ok dirty_report.
Proof. vm_compute. reflexivity. Qed.

Example hundred_rows_report :
  validation_results unsigned_decimal iso_to_date hundred_rows_df =
  Ok [ mkIssue "EmployerLegalName" "Missing required field: EmployerLegalName" 3;
       mkIssue "BusAdrStateCode" "Invalid state code format" 2 ].
Proof. vm_compute. reflexivity. Qed.

Lemma empty_report_raises_witness :
  validation_results unsigned_decimal iso_to_date clean_df = Ok [] /\
  validate_data_quality unsigned_decimal iso_to_date clean_df
    "s3://bucket/reports" "20240501_120000" =
  Raise (ValueError "can not infer schema from empty dataset").
Proof.
  apply (empty_report_raises unsigned_decimal iso_to_date clean_df).
  - vm_compute. reflexivity.
  - apply (bool_decide_unpack _). vm_compute. exact I.
Defined.

(** C2 fails on [headless_df]: the column is absent, and the rules
    raise instead of counting one missing value. *)
Lemma headless_df_raises :
  ("DocumentCount" ∉ columns headless_df) /\
  validation_results unsigned_decimal iso_to_date headless_df =
    Raise (AnalysisException "DocumentCount").
Proof.
  split; [|vm_compute; reflexivity].
  apply (bool_decide_unpack _). vm_compute. exact I.
Qed.

Lemma all_null_field_report_witness :
  exists results,
    validation_results unsigned_decimal iso_to_date unnamed_df = Ok results /\
    mkIssue "EmployerLegalName" "Missing required field: EmployerLegalName" 2
      ∈ results /\
    (forall i, i ∈ results -> field i = "EmployerLegalName" ->
       i = mkIssue "EmployerLegalName"
             "Missing required field: EmployerLegalName" 2) /\
    forall rl, rl ∈ rule_catalog -> is_format_rule rl = true ->
      fst (rule_label rl) = "EmployerLegalName" ->
      violations unnamed_df (rule_condition unsigned_decimal iso_to_date rl) = 0.
Proof.
  assert (("EmployerLegalName", "string") ∈ required_fields) as Hfield.
  { apply (bool_decide_unpack _). vm_compute. exact I. }
  assert (unresolved unnamed_df referenced_columns = None) as Hcols.
  { vm_compute. reflexivity. }
  assert (rows unnamed_df <> []) as Hrows.
  { discriminate. }
  assert (Forall (fun r : Row => r !! "EmployerLegalName" = None)
            (rows unnamed_df)) as Hnull.
  { apply (bool_decide_unpack _). vm_compute. exact I. }
  exact (proj2 (all_null_field_report unsigned_decimal iso_to_date unnamed_df
                  "EmployerLegalName" "string" Hfield) Hcols Hrows Hnull).
Defined.

Lemma issue_counts_positive_witness :
  Forall (fun i => 1 <= count i) dirty_report /\
  forall rl, rl ∈ rule_catalog ->
    violations dirty_df (rule_condition unsigned_decimal iso_to_date rl) = 0 ->
    forall i, i ∈ dirty_report -> label i <> rule_label rl.
Proof.
  apply (issue_counts_positive unsigned_decimal iso_to_date dirty_df).
  vm_compute. reflexivity.
Defined.

(** C4 fails on [no_fein_df]: the record has values that the format
    rules reject, and the rule on [EmployerFEIN] raises. *)
Lemma no_fein_df_raises :
  malformed unsigned_decimal (NumericFormat "TotalWagesThisPeriod") dirty_row
    = true /\
  unresolved no_fein_df required_fields.*1 = None /\
  validation_results unsigned_decimal iso_to_date no_fein_df =
    Raise (AnalysisException "EmployerFEIN").
Proof. repeat split; vm_compute; reflexivity. Qed.

Lemma malformed_values_never_raise_witness :
  exists results,
    validation_results unsigned_decimal iso_to_date dirty_df = Ok results /\
    forall rl r, rl ∈ rule_catalog -> r ∈ rows dirty_df ->
      malformed unsigned_decimal rl r = true ->
      keeps (rule_condition unsigned_decimal iso_to_date rl) r = true /\
      1 <= length (List.filter (malformed unsigned_decimal rl) (rows dirty_df)) /\
      mkIssue (fst (rule_label rl)) (snd (rule_label rl))
        (length (List.filter (malformed unsigned_decimal rl) (rows dirty_df)))
        ∈ results.
Proof.
  apply (malformed_values_never_raise unsigned_decimal iso_to_date dirty_df).
  vm_compute. reflexivity.
Defined.

Lemma date_order_counts_witness :
  filter_count dirty_df (date_order_condition iso_to_date) [] = Ok (1, []) /\
  forall r, keeps (date_order_condition iso_to_date) r = true <->
    exists e s end_date start_date,
      r !! "FAMLIPremiumEndDate" = Some e /\
      r !! "FAMLIPremiumStartDate" = Some s /\
      iso_to_date e = Some end_date /\
      iso_to_date s = Some start_date /\
      (end_date < start_date)%Z.
Proof.
  apply (date_order_counts iso_to_date dirty_df []).
  - apply (bool_decide_unpack _). vm_compute. exact I.
  - apply (bool_decide_unpack _). vm_compute. exact I.
Defined.

Lemma wage_rule_single_count_witness :
  List.filter (fun i => String.eqb (field i) "WagesCalculation") dirty_report =
    [mkIssue "WagesCalculation" "Invalid wage calculations" 2] /\
  length (List.filter wage_violation (rows dirty_df))
  + length (List.filter (fun r => subject_exceeds_gross r && ytd_below_gross r)
              (rows dirty_df))
  = length (List.filter subject_exceeds_gross (rows dirty_df))
    + length (List.filter ytd_below_gross (rows dirty_df)).
Proof.
  apply (wage_rule_single_count unsigned_decimal iso_to_date dirty_df).
  vm_compute. reflexivity.
Defined.

Lemma report_order_witness :
  label <$> dirty_report `sublist_of` rule_order /\ NoDup rule_order.
Proof.
  apply (report_order unsigned_decimal iso_to_date dirty_df).
  vm_compute. reflexivity.
Defined.

Lemma pattern_date_unparsed_witness :
  keeps (date_format_condition "FAMLIPremiumEndDate") impossible_date_row
    = false /\
  keeps (date_order_condition iso_to_date) impossible_date_row = false.
Proof.
  apply (pattern_date_unparsed iso_to_date impossible_date_row
           "FAMLIPremiumEndDate" "2024-13-45").
  - right. reflexivity.
  - vm_compute. reflexivity.
  - vm_compute. reflexivity.
  - vm_compute. reflexivity.
Defined.

(** The subject wages are null, and the row is selected through the
    second clause. *)
Example partial_wage_row_selected :
  partial_wage_row !! "SubjectWagesThisQtr" = None /\
  keeps contribution_condition partial_wage_row = true.
Proof. split; vm_compute; reflexivity. Qed.

(** ** The further properties on the sample data *)

Lemma report_permutation_invariant_witness :
  validation_results unsigned_decimal iso_to_date dirty_df =
  validation_results unsigned_decimal iso_to_date reversed_df.
Proof.
  apply (report_permutation_invariant unsigned_decimal iso_to_date
           dirty_df reversed_df).
  - reflexivity.
  - apply Permutation_rev.
Defined.

Lemma issue_counts_bounded_witness :
  Forall (fun i => count i <= length (rows dirty_df)) dirty_report.
Proof.
  apply (issue_counts_bounded unsigned_decimal iso_to_date dirty_df).
  vm_compute. reflexivity.
Defined.

Lemma report_labels_unique_witness :
  NoDup (label <$> dirty_report) /\ length dirty_report <= 35.
Proof.
  apply (report_labels_unique unsigned_decimal iso_to_date dirty_df).
  vm_compute. reflexivity.
Defined.

Lemma null_not_format_violation_witness :
  (forall r, keeps (null_condition "EmployeeSSN") r = true ->
     keeps ssn_format_condition r = false) /\
  violations dirty_df (null_condition "EmployeeSSN")
  + violations dirty_df ssn_format_condition <= length (rows dirty_df).
Proof.
  apply (null_not_format_violation unsigned_decimal iso_to_date dirty_df
           (FieldFormat "EmployeeSSN" "Invalid SSN format" nine_digits_pattern)).
  reflexivity.
Defined.

Lemma report_depends_on_referenced_columns_witness :
  validation_results unsigned_decimal iso_to_date dirty_df =
  validation_results unsigned_decimal iso_to_date annotated_df.
Proof.
  apply (report_depends_on_referenced_columns unsigned_decimal iso_to_date
           dirty_df annotated_df).
  - reflexivity.
  - apply (bool_decide_unpack _). vm_compute. exact I.
Defined.

Lemma reports_add_up_witness :
  exists results,
    validation_results unsigned_decimal iso_to_date dirty_df = Ok results /\
    forall lbl, reported results lbl
                = reported dirty_head_report lbl + reported dirty_tail_report lbl.
Proof.
  apply (reports_add_up unsigned_decimal iso_to_date
           dirty_head_df dirty_tail_df dirty_df).
  - reflexivity.
  - reflexivity.
  - reflexivity.
  - vm_compute. reflexivity.
  - vm_compute. reflexivity.
Defined.

Lemma report_counts_two_valued_witness :
  reported dirty_report ("WagesCalculation", "Invalid wage calculations")
  = length (List.filter (selects unsigned_decimal iso_to_date WageConsistency)
              (rows dirty_df)).
Proof.
  apply (report_counts_two_valued unsigned_decimal iso_to_date dirty_df
           dirty_report WageConsistency).
  - vm_compute. reflexivity.
  - unfold rule_catalog. apply elem_of_app. right. repeat constructor.
Defined.

Lemma unchecked_types_accept_any_value_witness :
  Forall (fun i => field i <> "DocumentCount") dirty_tail_report.
Proof.
  apply (unchecked_types_accept_any_value unsigned_decimal iso_to_date
           untyped_df dirty_tail_report "DocumentCount" "integer").
  - apply (bool_decide_unpack _). vm_compute. exact I.
  - discriminate.
  - discriminate.
  - apply (bool_decide_unpack _). vm_compute. exact I.
  - apply (bool_decide_unpack _). vm_compute. exact I.
  - vm_compute. reflexivity.
Defined.

Lemma null_gross_never_selected_witness :
  keeps contribution_condition (delete "GrossWagesThisQtr" late_row) = false.
Proof.
  apply (null_gross_never_selected (delete "GrossWagesThisQtr" late_row)).
  vm_compute. reflexivity.
Defined.

(** A nine-digit value with a line feed after it passes the SSN rule;
    with a space after it, it does not. *)
Example ssn_line_feed :
  rlike_string (String "1" (String "2" (String "3" (String "4" (String "5"
     (String "6" (String "7" (String "8" (String "9"
     (String "010" EmptyString)))))))))) nine_digits_pattern = true /\
  rlike_string "123456789 " nine_digits_pattern = false.
Proof. split; reflexivity. Qed.

